(** * Student dashboard screen (app/student-dashboard.tsx)

    A shallow embedding of the [StudentDashboard] component: its state
    cells ([useState]), the handlers that write them, and the asynchronous
    continuations of [fetchEnrolledCourses] and [handleBarCodeScanned].

    Conventions.
    - Every [useState] cell is a field of [State]; a setter call is a
      record update that is visible to the next statement and to the next
      event.  The one exception is the camera: its decode callback is the
      one bound at the last render (line 315), so decodes that the camera
      emits before the re-render that follows [setScanned(true)] still
      reach the handler.  The event [Render] is that re-render.
    - An [async] function is cut at its [await]s: the part before the first
      [await] runs in the event that calls it, and each continuation runs
      in the event that settles the awaited promise and carries the value
      (or the rejection) the promise settles with.
    - Texts produced by the platform (the message of a rejected [fetch], of
      a failed [response.json()], of a [TypeError], the text of a value
      that is not a string) are inputs.
    - Time is a clock in milliseconds; a [setTimeout] callback runs once
      the clock has reached its due time, at that moment or later.
    - The splash screen, the scan-line animation and the unloading of the
      sound write none of the cells and are left out. *)

From Stdlib Require Import List String Ascii Bool ZArith Lia Permutation.
Import ListNotations.
Local Open Scope string_scope.
Local Open Scope list_scope.
Local Open Scope Z_scope.

(** ** Data model *)

(** [Course] is imported from [../lib/api]; the fields are the ones the
    screen reads ([_id], [courseCode], [courseName], [schedules],
    [lecturerId], [students]).  [students] may be absent: the filter of
    [fetchEnrolledCourses] tests it before use. *)
Record Schedule := mkSchedule {
  days : list string;
  startTime : string;
  endTime : string
}.

Record Lecturer := mkLecturer {
  firstName : string;
  lastName : string
}.

Record Course := mkCourse {
  _id : string;
  courseCode : string;
  courseName : string;
  schedules : list Schedule;
  lecturerId : option Lecturer;
  students : option (list string)
}.

(** What [await getCourses()] settles with.  The declared type is
    [Course[]]; at run time the value may fail to be an array, and an entry
    may be [null]/[undefined] ([None] below). *)
Inductive CoursesValue :=
| NotAnArray
| CourseArray (entries : list (option Course)).

Inductive Settled (A : Type) :=
| Rejected (message : string)
| Resolved (value : A).
Arguments Rejected {A} message.
Arguments Resolved {A} value.

(** JSON values, as [response.json()] produces them.  Numbers are the
    integers (what the handler does with a number, testing it against
    zero, needs no more); an object is its member list in source order. *)
#[warnings="-register-all"]
Inductive Json :=
| JNull
| JBool (b : bool)
| JNum (n : Z)
| JStr (s : string)
| JArr (items : list Json)
| JObj (members : list (string * Json)).

(** The body of an HTTP response as [response.json()] sees it: absent or
    not JSON (the promise rejects with the parser's message), or a JSON
    value. *)
Inductive Body :=
| Unparsable (parse_error : string)
| Parsed (value : Json).

Record Response := mkResponse {
  status : Z;
  body : Body
}.

(** The POST issued by [handleBarCodeScanned]: the two members of its JSON
    body. *)
Record ScanRequest := mkScanRequest {
  qrData : string;
  studentId : string
}.

(** *** State cells *)

Record State := mkState {
  (* useState cells, in declaration order *)
  courses : list Course;
  isLoading : bool;
  error : option string;
  showLogoutConfirm : bool;
  isScannerVisible : bool;
  scanned : bool;
  hasPermission : option bool;
  sound : option nat;
  showSuccessModal : bool;
  showErrorModal : bool;
  errorMessage : string;
  (* the world around the cells *)
  alerts : list (string * string);   (* Alert.alert(title, message) calls, oldest first *)
  route : option string;             (* router.replace target, once called *)
  coursesPending : bool;             (* getCourses() not settled yet *)
  permissionPending : bool;          (* requestCameraPermissionsAsync() not settled yet *)
  beeps : list string;               (* handlers suspended at [await playBeep()], with their [data] *)
  inflight : list ScanRequest;       (* handlers suspended at [await fetch(...)] *)
  posted : list ScanRequest;         (* every POST issued so far, oldest first *)
  now : Z;                           (* clock, in ms *)
  timers : list Z;                   (* due times of the pending success timeouts *)
  fontsLoaded : bool;                (* useFonts: the font is loaded *)
  fontError : bool;                  (* useFonts: loading the font failed *)
  unrendered : bool                  (* a decode has set the latch and the camera still holds the callback of the render before *)
}.

(** Setters: one per cell the code writes. *)
Definition setCourses v s :=
  mkState v s.(isLoading) s.(error) s.(showLogoutConfirm) s.(isScannerVisible)
    s.(scanned) s.(hasPermission) s.(sound) s.(showSuccessModal) s.(showErrorModal)
    s.(errorMessage) s.(alerts) s.(route) s.(coursesPending) s.(permissionPending)
    s.(beeps) s.(inflight) s.(posted) s.(now) s.(timers) s.(fontsLoaded) s.(fontError)
    s.(unrendered).
Definition setIsLoading v s :=
  mkState s.(courses) v s.(error) s.(showLogoutConfirm) s.(isScannerVisible) s.(scanned)
    s.(hasPermission) s.(sound) s.(showSuccessModal) s.(showErrorModal) s.(errorMessage)
    s.(alerts) s.(route) s.(coursesPending) s.(permissionPending) s.(beeps) s.(inflight)
    s.(posted) s.(now) s.(timers) s.(fontsLoaded) s.(fontError) s.(unrendered).
Definition setError v s :=
  mkState s.(courses) s.(isLoading) v s.(showLogoutConfirm) s.(isScannerVisible)
    s.(scanned) s.(hasPermission) s.(sound) s.(showSuccessModal) s.(showErrorModal)
    s.(errorMessage) s.(alerts) s.(route) s.(coursesPending) s.(permissionPending)
    s.(beeps) s.(inflight) s.(posted) s.(now) s.(timers) s.(fontsLoaded) s.(fontError)
    s.(unrendered).
Definition setShowLogoutConfirm v s :=
  mkState s.(courses) s.(isLoading) s.(error) v s.(isScannerVisible) s.(scanned)
    s.(hasPermission) s.(sound) s.(showSuccessModal) s.(showErrorModal) s.(errorMessage)
    s.(alerts) s.(route) s.(coursesPending) s.(permissionPending) s.(beeps) s.(inflight)
    s.(posted) s.(now) s.(timers) s.(fontsLoaded) s.(fontError) s.(unrendered).
Definition setScannerVisible v s :=
  mkState s.(courses) s.(isLoading) s.(error) s.(showLogoutConfirm) v s.(scanned)
    s.(hasPermission) s.(sound) s.(showSuccessModal) s.(showErrorModal) s.(errorMessage)
    s.(alerts) s.(route) s.(coursesPending) s.(permissionPending) s.(beeps) s.(inflight)
    s.(posted) s.(now) s.(timers) s.(fontsLoaded) s.(fontError) s.(unrendered).
Definition setScanned v s :=
  mkState s.(courses) s.(isLoading) s.(error) s.(showLogoutConfirm) s.(isScannerVisible)
    v s.(hasPermission) s.(sound) s.(showSuccessModal) s.(showErrorModal)
    s.(errorMessage) s.(alerts) s.(route) s.(coursesPending) s.(permissionPending)
    s.(beeps) s.(inflight) s.(posted) s.(now) s.(timers) s.(fontsLoaded) s.(fontError)
    s.(unrendered).
Definition setHasPermission v s :=
  mkState s.(courses) s.(isLoading) s.(error) s.(showLogoutConfirm) s.(isScannerVisible)
    s.(scanned) v s.(sound) s.(showSuccessModal) s.(showErrorModal) s.(errorMessage)
    s.(alerts) s.(route) s.(coursesPending) s.(permissionPending) s.(beeps) s.(inflight)
    s.(posted) s.(now) s.(timers) s.(fontsLoaded) s.(fontError) s.(unrendered).
Definition setSound v s :=
  mkState s.(courses) s.(isLoading) s.(error) s.(showLogoutConfirm) s.(isScannerVisible)
    s.(scanned) s.(hasPermission) v s.(showSuccessModal) s.(showErrorModal)
    s.(errorMessage) s.(alerts) s.(route) s.(coursesPending) s.(permissionPending)
    s.(beeps) s.(inflight) s.(posted) s.(now) s.(timers) s.(fontsLoaded) s.(fontError)
    s.(unrendered).
Definition setShowSuccessModal v s :=
  mkState s.(courses) s.(isLoading) s.(error) s.(showLogoutConfirm) s.(isScannerVisible)
    s.(scanned) s.(hasPermission) s.(sound) v s.(showErrorModal) s.(errorMessage)
    s.(alerts) s.(route) s.(coursesPending) s.(permissionPending) s.(beeps) s.(inflight)
    s.(posted) s.(now) s.(timers) s.(fontsLoaded) s.(fontError) s.(unrendered).
Definition setShowErrorModal v s :=
  mkState s.(courses) s.(isLoading) s.(error) s.(showLogoutConfirm) s.(isScannerVisible)
    s.(scanned) s.(hasPermission) s.(sound) s.(showSuccessModal) v s.(errorMessage)
    s.(alerts) s.(route) s.(coursesPending) s.(permissionPending) s.(beeps) s.(inflight)
    s.(posted) s.(now) s.(timers) s.(fontsLoaded) s.(fontError) s.(unrendered).
Definition setErrorMessage v s :=
  mkState s.(courses) s.(isLoading) s.(error) s.(showLogoutConfirm) s.(isScannerVisible)
    s.(scanned) s.(hasPermission) s.(sound) s.(showSuccessModal) s.(showErrorModal) v
    s.(alerts) s.(route) s.(coursesPending) s.(permissionPending) s.(beeps) s.(inflight)
    s.(posted) s.(now) s.(timers) s.(fontsLoaded) s.(fontError) s.(unrendered).

(** Updates of the surrounding world. *)
Definition alert (title message : string) s :=
  mkState s.(courses) s.(isLoading) s.(error) s.(showLogoutConfirm) s.(isScannerVisible)
    s.(scanned) s.(hasPermission) s.(sound) s.(showSuccessModal) s.(showErrorModal)
    s.(errorMessage) (s.(alerts) ++ [(title, message)]) s.(route) s.(coursesPending)
    s.(permissionPending) s.(beeps) s.(inflight) s.(posted) s.(now) s.(timers)
    s.(fontsLoaded) s.(fontError) s.(unrendered).
Definition router_replace (target : string) s :=
  mkState s.(courses) s.(isLoading) s.(error) s.(showLogoutConfirm) s.(isScannerVisible)
    s.(scanned) s.(hasPermission) s.(sound) s.(showSuccessModal) s.(showErrorModal)
    s.(errorMessage) s.(alerts) (Some target) s.(coursesPending) s.(permissionPending)
    s.(beeps) s.(inflight) s.(posted) s.(now) s.(timers) s.(fontsLoaded) s.(fontError)
    s.(unrendered).
Definition withCoursesPending v s :=
  mkState s.(courses) s.(isLoading) s.(error) s.(showLogoutConfirm) s.(isScannerVisible)
    s.(scanned) s.(hasPermission) s.(sound) s.(showSuccessModal) s.(showErrorModal)
    s.(errorMessage) s.(alerts) s.(route) v s.(permissionPending) s.(beeps) s.(inflight)
    s.(posted) s.(now) s.(timers) s.(fontsLoaded) s.(fontError) s.(unrendered).
Definition withPermissionPending v s :=
  mkState s.(courses) s.(isLoading) s.(error) s.(showLogoutConfirm) s.(isScannerVisible)
    s.(scanned) s.(hasPermission) s.(sound) s.(showSuccessModal) s.(showErrorModal)
    s.(errorMessage) s.(alerts) s.(route) s.(coursesPending) v s.(beeps) s.(inflight)
    s.(posted) s.(now) s.(timers) s.(fontsLoaded) s.(fontError) s.(unrendered).
Definition withBeeps v s :=
  mkState s.(courses) s.(isLoading) s.(error) s.(showLogoutConfirm) s.(isScannerVisible)
    s.(scanned) s.(hasPermission) s.(sound) s.(showSuccessModal) s.(showErrorModal)
    s.(errorMessage) s.(alerts) s.(route) s.(coursesPending) s.(permissionPending) v
    s.(inflight) s.(posted) s.(now) s.(timers) s.(fontsLoaded) s.(fontError)
    s.(unrendered).
Definition withInflight v s :=
  mkState s.(courses) s.(isLoading) s.(error) s.(showLogoutConfirm) s.(isScannerVisible)
    s.(scanned) s.(hasPermission) s.(sound) s.(showSuccessModal) s.(showErrorModal)
    s.(errorMessage) s.(alerts) s.(route) s.(coursesPending) s.(permissionPending)
    s.(beeps) v s.(posted) s.(now) s.(timers) s.(fontsLoaded) s.(fontError)
    s.(unrendered).
Definition withPosted v s :=
  mkState s.(courses) s.(isLoading) s.(error) s.(showLogoutConfirm) s.(isScannerVisible)
    s.(scanned) s.(hasPermission) s.(sound) s.(showSuccessModal) s.(showErrorModal)
    s.(errorMessage) s.(alerts) s.(route) s.(coursesPending) s.(permissionPending)
    s.(beeps) s.(inflight) v s.(now) s.(timers) s.(fontsLoaded) s.(fontError)
    s.(unrendered).
Definition withNow v s :=
  mkState s.(courses) s.(isLoading) s.(error) s.(showLogoutConfirm) s.(isScannerVisible)
    s.(scanned) s.(hasPermission) s.(sound) s.(showSuccessModal) s.(showErrorModal)
    s.(errorMessage) s.(alerts) s.(route) s.(coursesPending) s.(permissionPending)
    s.(beeps) s.(inflight) s.(posted) v s.(timers) s.(fontsLoaded) s.(fontError)
    s.(unrendered).
Definition withTimers v s :=
  mkState s.(courses) s.(isLoading) s.(error) s.(showLogoutConfirm) s.(isScannerVisible)
    s.(scanned) s.(hasPermission) s.(sound) s.(showSuccessModal) s.(showErrorModal)
    s.(errorMessage) s.(alerts) s.(route) s.(coursesPending) s.(permissionPending)
    s.(beeps) s.(inflight) s.(posted) s.(now) v s.(fontsLoaded) s.(fontError)
    s.(unrendered).
Definition withFontsLoaded v s :=
  mkState s.(courses) s.(isLoading) s.(error) s.(showLogoutConfirm) s.(isScannerVisible)
    s.(scanned) s.(hasPermission) s.(sound) s.(showSuccessModal) s.(showErrorModal)
    s.(errorMessage) s.(alerts) s.(route) s.(coursesPending) s.(permissionPending)
    s.(beeps) s.(inflight) s.(posted) s.(now) s.(timers) v s.(fontError) s.(unrendered).
Definition withFontError v s :=
  mkState s.(courses) s.(isLoading) s.(error) s.(showLogoutConfirm) s.(isScannerVisible)
    s.(scanned) s.(hasPermission) s.(sound) s.(showSuccessModal) s.(showErrorModal)
    s.(errorMessage) s.(alerts) s.(route) s.(coursesPending) s.(permissionPending)
    s.(beeps) s.(inflight) s.(posted) s.(now) s.(timers) s.(fontsLoaded) v
    s.(unrendered).
Definition withUnrendered v s :=
  mkState s.(courses) s.(isLoading) s.(error) s.(showLogoutConfirm) s.(isScannerVisible)
    s.(scanned) s.(hasPermission) s.(sound) s.(showSuccessModal) s.(showErrorModal)
    s.(errorMessage) s.(alerts) s.(route) s.(coursesPending) s.(permissionPending)
    s.(beeps) s.(inflight) s.(posted) s.(now) s.(timers) s.(fontsLoaded) s.(fontError) v.

(** The cells as [useState] initialises them, right after mount: the
    mount effects have called [fetchEnrolledCourses] and
    [checkPermissions], whose first [await]s are pending, and the font is
    still loading. *)
Definition init : State :=
  mkState [] true None false false false None None false false ""
          [] None true true [] [] [] 0 [] false false false.

(** ** The JavaScript operations the handlers rely on *)

(** [Array.prototype.includes] on an array of strings. *)
Fixpoint includes (l : list string) (x : string) : bool :=
  match l with
  | [] => false
  | y :: rest => String.eqb y x || includes rest x
  end.

(** [list.splice(n, 1)]: drop the entry at index [n]. *)
Fixpoint drop_nth {A : Type} (n : nat) (l : list A) : list A :=
  match l, n with
  | [], _ => []
  | _ :: rest, O => rest
  | x :: rest, S m => x :: drop_nth m rest
  end.

(** [response.ok]: the status is in the range 200-299. *)
Definition ok (r : Response) : bool :=
  (200 <=? r.(status)) && (r.(status) <=? 299).

(** Truthiness of a JSON value ([false], [0], the empty string and [null]
    are falsy). *)
Definition truthy (v : Json) : bool :=
  match v with
  | JNull => false
  | JBool b => b
  | JNum n => negb (n =? 0)
  | JStr s => negb (String.eqb s "")
  | JArr _ | JObj _ => true
  end.

(** Own property lookup on a parsed object: a later duplicate member wins,
    as in [JSON.parse]. *)
Fixpoint member (key : string) (members : list (string * Json)) : option Json :=
  match members with
  | [] => None
  | (k, v) :: rest =>
      match member key rest with
      | Some later => Some later
      | None => if String.eqb k key then Some v else None
      end
  end.

(** What the JavaScript engine contributes: the message of the
    [TypeError] it throws when a property of [null] is read, and, for a
    truthy value [v] that is not a string, the message that
    [new Error(v)] ends with in [catch]: the text of [String(v)], or the
    message of the [TypeError] that the conversion throws. *)
Record Engine := mkEngine {
  null_access : string;
  conversion : Json -> string
}.

(** One engine, used where a concrete one is needed: the text of its
    [TypeError] on [null.message], and a conversion that is a stand-in
    (the text of a plain object): no example below converts a value. *)
Definition engine_text : Engine :=
  mkEngine "Cannot read property 'message' of null"
           (fun _ => "[object Object]").

(** ** The component *)

Section Screen.

(** [params.id], read once per render of the screen. *)
Variable currentUserId : string.

(** The engine the screen runs on. *)
Variable engine : Engine.

(** The message of the [TypeError] the engine throws when a property of
    [null] is read. *)
Definition null_access_text : string := null_access engine.

(** *** Course list loader *)

(** The filter callback (lines 74-77):
    [course.students && course.students.includes(currentUserId)]. *)
Definition is_enrolled (course : Course) : bool :=
  match course.(students) with
  | None => false
  | Some ids => includes ids currentUserId
  end.

(** [allCourses.filter(callback)] over the entries of the array; [None]
    when the callback throws, which it does on a [null]/[undefined] entry
    (reading [course.students]). *)
Fixpoint filter_enrolled (entries : list (option Course)) : option (list Course) :=
  match entries with
  | [] => Some []
  | None :: _ => None
  | Some course :: rest =>
      match filter_enrolled rest with
      | None => None
      | Some kept => Some (if is_enrolled course then course :: kept else kept)
      end
  end.

Definition fetch_error_text : string := "Failed to fetch courses. Please try again.".

(** The [try] block after [await getCourses()]: [inr] carries the
    enrolled courses, [inl] means that control reached [catch]. *)
Definition enrolledCourses (o : Settled CoursesValue) : unit + list Course :=
  match o with
  | Rejected _ => inl tt
  | Resolved NotAnArray => inl tt
  | Resolved (CourseArray entries) =>
      match filter_enrolled entries with
      | None => inl tt
      | Some kept => inr kept
      end
  end.

(** [fetchEnrolledCourses] from the point where [getCourses()] settles:
    rest of [try], [catch], [finally]. *)
Definition fetchEnrolledCourses_resume (o : Settled CoursesValue) (s : State) : State :=
  let s :=
    match enrolledCourses o with
    | inr kept => setCourses kept s
    | inl _ => setError (Some fetch_error_text) s
    end in
  setIsLoading false s.

(** The whole of [fetchEnrolledCourses], given what [getCourses()]
    settles with. *)
Definition fetchEnrolledCourses (o : Settled CoursesValue) (s : State) : State :=
  fetchEnrolledCourses_resume o (setIsLoading true s).

(** What the scroll area renders (lines 266-282). *)
Inductive CourseArea :=
| Spinner
| ErrorBanner (text : string)
| EmptyState
| Cards (shown : list Course).

Definition courseArea (s : State) : CourseArea :=
  if s.(isLoading) then Spinner
  else
    let list_or_empty :=
      match s.(courses) with
      | [] => EmptyState
      | _ :: _ => Cards s.(courses)
      end in
    match s.(error) with
    | Some text => if String.eqb text "" then list_or_empty else ErrorBanner text
    | None => list_or_empty
    end.

(** What the component returns (lines 195-197 and 249 on): nothing while
    the font is neither loaded nor failed, the screen with its scroll area
    otherwise. *)
Definition fontsReady (s : State) : bool :=
  s.(fontsLoaded) || s.(fontError).

Definition screen (s : State) : option CourseArea :=
  if fontsReady s then Some (courseArea s) else None.

(** *** Camera permission *)

(** [checkPermissions] from the point where
    [Camera.requestCameraPermissionsAsync()] settles. *)
Definition checkPermissions_resume (o : Settled string) (s : State) : State :=
  match o with
  | Resolved status => setHasPermission (Some (String.eqb status "granted")) s
  | Rejected _ => alert "Error" "Failed to access camera" s
  end.

(** [handleScanPress] (lines 152-162). *)
Definition handleScanPress (s : State) : State :=
  match s.(hasPermission) with
  | None => alert "Error" "Requesting camera permission..." s
  | Some false => alert "Error" "No access to camera" s
  | Some true => setScannerVisible true s
  end.

(** *** Scan flow and submission *)

Definition fallback_text : string := "Failed to record attendance".
Definition network_text : string :=
  "Unable to connect to the server. Please check your internet connection.".
Definition success_delay : Z := 2000.

(** [handleBarCodeScanned] up to its first [await] (lines 113-115): the
    latch is set, then the handler is parked on [playBeep()]. *)
Definition handleBarCodeScanned (data : string) (s : State) : State :=
  let s := setScanned true s in
  withBeeps (s.(beeps) ++ [data]) s.

(** [playBeep] (lines 99-110) once its promises settle: a created sound
    is stored; a failure is logged and swallowed. *)
Definition playBeep_resume (created : Settled nat) (s : State) : State :=
  match created with
  | Resolved handle => setSound (Some handle) s
  | Rejected _ => s
  end.

(** [handleBarCodeScanned] from the return of [playBeep()] to
    [await fetch(...)] (lines 115-128): the POST is issued. *)
Definition handleBarCodeScanned_post (n : nat) (created : Settled nat) (s : State) : State :=
  match nth_error s.(beeps) n with
  | None => s
  | Some data =>
      let s := withBeeps (drop_nth n s.(beeps)) s in
      let s := playBeep_resume created s in
      let request := mkScanRequest data currentUserId in
      let s := withPosted (s.(posted) ++ [request]) s in
      withInflight (s.(inflight) ++ [request]) s
  end.

(** [result.message]: [inl] is the [TypeError] thrown on [null],
    [inr None] is [undefined]. *)
Definition message_of (result : Json) : string + option Json :=
  match result with
  | JNull => inl null_access_text
  | JObj members => inr (member "message" members)
  | JBool _ | JNum _ | JStr _ | JArr _ => inr None
  end.

(** The message of [new Error(v)] for a truthy [v], as [catch] reads it:
    [v] itself when it is a string, the engine's conversion otherwise. *)
Definition error_text (v : Json) : string :=
  match v with
  | JStr text => text
  | _ => conversion engine v
  end.

(** The message of [new Error(result.message || 'Failed to record
    attendance')] (line 133). *)
Definition rejection_text (message : option Json) : string :=
  match message with
  | Some m => if truthy m then error_text m else fallback_text
  | None => fallback_text
  end.

(** Lines 118-134, given what [fetch] settles with: [inl m] when an error
    with message [m] is thrown (by [fetch], by [response.json()], by
    reading [result.message], or by line 133), [inr tt] when control
    reaches line 136. *)
Definition submission (o : Settled Response) : string + unit :=
  match o with
  | Rejected m => inl m
  | Resolved response =>
      match response.(body) with
      | Unparsable m => inl m
      | Parsed result =>
          if negb (ok response) then
            match message_of result with
            | inl m => inl m
            | inr message => inl (rejection_text message)
            end
          else inr tt
      end
  end.

(** The argument of [setErrorMessage] in [catch] (lines 144-146). *)
Definition displayed_text (m : string) : string :=
  if String.eqb m "Network request failed" then network_text
  else if String.eqb m "" then fallback_text
  else m.

(** The [setTimeout] callback (lines 138-140). *)
Definition success_timeout (s : State) : State :=
  let s := setShowSuccessModal false s in
  let s := setScannerVisible false s in
  setScanned false s.

(** Lines 136-141. *)
Definition on_success (s : State) : State :=
  let s := setShowSuccessModal true s in
  withTimers (s.(timers) ++ [s.(now) + success_delay]) s.

(** The [catch] block (lines 142-149). *)
Definition on_failure (m : string) (s : State) : State :=
  let s := setErrorMessage (displayed_text m) s in
  let s := setShowErrorModal true s in
  setScanned false s.

(** [handleBarCodeScanned] from the point where [fetch] settles (lines
    128-149).  [await response.json()] writes no cell, so it is taken in
    the same step. *)
Definition handleBarCodeScanned_settle (n : nat) (o : Settled Response) (s : State) : State :=
  match nth_error s.(inflight) n with
  | None => s
  | Some _ =>
      let s := withInflight (drop_nth n s.(inflight)) s in
      match submission o with
      | inr _ => on_success s
      | inl m => on_failure m s
      end
  end.

(** *** Logout *)

(** [handleLogout] (lines 187-189). *)
Definition handleLogout (s : State) : State :=
  setShowLogoutConfirm true s.

(** [handleConfirmLogout] (lines 191-193). *)
Definition handleConfirmLogout (s : State) : State :=
  router_replace "/" s.

(** *** Events *)

Inductive Event :=
| CoursesSettled (o : Settled CoursesValue)   (* getCourses() settles *)
| PermissionSettled (o : Settled string)      (* the permission request settles *)
| HardwareBack                                (* the hardwareBackPress listener (lines 41-44) *)
| PressLogout                                 (* header button: handleLogout *)
| PressCancelLogout                           (* logout dialog, Cancel *)
| PressConfirmLogout                          (* logout dialog, Logout: handleConfirmLogout *)
| RequestCloseLogout                          (* logout dialog, onRequestClose *)
| PressScan                                   (* scan button of a course card: handleScanPress *)
| PressCloseScanner                           (* back arrow of the scanner (lines 291-294) *)
| PressScanAgain                              (* 'Scan Again' (line 354) *)
| Decode (data : string)                      (* CameraView's onBarcodeScanned *)
| BeepSettled (n : nat) (created : Settled nat)
| FetchSettled (n : nat) (o : Settled Response)
| RequestCloseSuccess                         (* success dialog, onRequestClose *)
| RequestCloseError                           (* error dialog, onRequestClose *)
| PressTryAgain                               (* error dialog, 'Try Again' *)
| Tick (d : Z)                                (* d ms pass *)
| TimerFire (n : nat)                         (* a success timeout runs *)
| FontsSettled (loaded : bool)                (* useFonts settles: loaded, or failed *)
| Render.                                     (* the re-render after a decode reaches the camera *)

(** The [onBarcodeScanned] prop of line 315 as the camera holds it: bound
    unless a render has seen the latch set. *)
Definition callbackBound (s : State) : bool :=
  negb s.(scanned) || s.(unrendered).

(** The code each event runs. *)
Definition handle (e : Event) (s : State) : State :=
  match e with
  | CoursesSettled o => fetchEnrolledCourses_resume o (withCoursesPending false s)
  | PermissionSettled o => checkPermissions_resume o (withPermissionPending false s)
  | HardwareBack => setShowLogoutConfirm true s
  | PressLogout => handleLogout s
  | PressCancelLogout => setShowLogoutConfirm false s
  | PressConfirmLogout => handleConfirmLogout s
  | RequestCloseLogout => setShowLogoutConfirm false s
  | PressScan => handleScanPress s
  | PressCloseScanner => setScanned false (setScannerVisible false s)
  | PressScanAgain => setScanned false s
  | Decode data =>
      (* onBarcodeScanned={scanned ? undefined : handleBarCodeScanned},
         as of the last render *)
      if callbackBound s then withUnrendered true (handleBarCodeScanned data s) else s
  | BeepSettled n created => handleBarCodeScanned_post n created s
  | FetchSettled n o => handleBarCodeScanned_settle n o s
  | RequestCloseSuccess => setShowSuccessModal false s
  | RequestCloseError => setShowErrorModal false s
  | PressTryAgain => setShowErrorModal false s
  | Tick d => withNow (s.(now) + d) s
  | TimerFire n =>
      match nth_error s.(timers) n with
      | None => s
      | Some _ => success_timeout (withTimers (drop_nth n s.(timers)) s)
      end
  | FontsSettled loaded =>
      if loaded then withFontsLoaded true s else withFontError true s
  | Render => withUnrendered false s
  end.

Definition modalOpen (s : State) : bool :=
  s.(showSuccessModal) || s.(showErrorModal) || s.(showLogoutConfirm).

(** When an event can occur: the control is rendered, the callback is
    bound, the promise is pending, the timer is due.  This is an upper
    bound: it does not ask that the fonts have settled, without which no
    control is on screen at all (see [screen]). *)
Definition enabled (e : Event) (s : State) : bool :=
  match e with
  | CoursesSettled _ => s.(coursesPending)
  | PermissionSettled _ => s.(permissionPending)
  | HardwareBack => negb (modalOpen s)
  | PressLogout => true
  | PressCancelLogout | PressConfirmLogout | RequestCloseLogout => s.(showLogoutConfirm)
  | PressScan => match courseArea s with Cards _ => true | _ => false end
  | PressCloseScanner => s.(isScannerVisible)
  | PressScanAgain => s.(isScannerVisible) && s.(scanned)
  | Decode _ => s.(isScannerVisible) && callbackBound s
  | BeepSettled n _ => match nth_error s.(beeps) n with Some _ => true | None => false end
  | FetchSettled n _ => match nth_error s.(inflight) n with Some _ => true | None => false end
  | RequestCloseSuccess => s.(showSuccessModal)
  | RequestCloseError | PressTryAgain => s.(showErrorModal)
  | Tick d => 0 <=? d
  | TimerFire n =>
      match nth_error s.(timers) n with
      | Some due => due <=? s.(now)
      | None => false
      end
  | FontsSettled _ => negb s.(fontsLoaded) && negb s.(fontError)
  | Render => s.(unrendered)
  end.

(** A run: the events in order, each one enabled where it occurs. *)
Fixpoint run (events : list Event) (s : State) : option State :=
  match events with
  | [] => Some s
  | e :: rest => if enabled e s then run rest (handle e s) else None
  end.

(** *** Vocabulary of the specification *)

(** The dialogs presented in a state, in the order of their [Modal]s. *)
Inductive Dialog := SuccessDialog | ErrorDialog | LogoutDialog.

Definition activeDialogs (s : State) : list Dialog :=
  (if s.(showSuccessModal) then [SuccessDialog] else [])
  ++ (if s.(showErrorModal) then [ErrorDialog] else [])
  ++ (if s.(showLogoutConfirm) then [LogoutDialog] else []).

(** "The membership list of the course contains the user". *)
Definition has_member (course : Course) : Prop :=
  exists ids, course.(students) = Some ids /\ In currentUserId ids.

(** "[L] is exactly the subsequence of [C] whose members satisfy [P], in
    the order of [C]": every member of [C] is kept when it satisfies [P]
    and dropped when it does not. *)
Inductive SubsequenceWhere (P : Course -> Prop) : list Course -> list Course -> Prop :=
| sw_nil : SubsequenceWhere P [] []
| sw_keep c C L : P c -> SubsequenceWhere P C L -> SubsequenceWhere P (c :: C) (c :: L)
| sw_drop c C L : ~ P c -> SubsequenceWhere P C L -> SubsequenceWhere P (c :: C) L.

(** "The course fetch rejects or its response is malformed". *)
Inductive FetchFails : Settled CoursesValue -> Prop :=
| ff_rejects m : FetchFails (Rejected m)
| ff_not_array : FetchFails (Resolved NotAnArray)
| ff_null_entry entries : In None entries -> FetchFails (Resolved (CourseArray entries)).

(** The events whose code calls [setScanned(false)]: the two buttons of
    the scanner, the success timeout, and a submission that ends in
    [catch]. *)
Definition clears_latch (e : Event) : bool :=
  match e with
  | PressScanAgain | PressCloseScanner | TimerFire _ => true
  | FetchSettled _ o => match submission o with inl _ => true | inr _ => false end
  | _ => false
  end.

Definition is_decode (e : Event) : bool :=
  match e with Decode _ => true | _ => false end.

(** Number of handler invocations that a run delivers to
    [handleBarCodeScanned]. *)
Definition decodes (events : list Event) : nat :=
  List.length (filter is_decode events).

(** The flags of the three dialogs. *)
Definition dialogFlags (s : State) : bool * bool * bool :=
  (s.(showSuccessModal), s.(showErrorModal), s.(showLogoutConfirm)).

(** Number of positions where two flag triples differ. *)
Definition flags_changed (a b : bool * bool * bool) : nat :=
  let '(a1, a2, a3) := a in
  let '(b1, b2, b3) := b in
  ((if Bool.eqb a1 b1 then 0 else 1)
   + (if Bool.eqb a2 b2 then 0 else 1)
   + (if Bool.eqb a3 b3 then 0 else 1))%nat.

Definition keeps_latch (e : Event) : bool := negb (clears_latch e).

(** Sum of the durations of a list of ticks. *)
Definition total (ds : list Z) : Z := fold_right Z.add 0 ds.

(** The payloads a list of events delivers to the decode callback. *)
Definition payloads (events : list Event) : list string :=
  flat_map (fun e => match e with Decode data => [data] | _ => [] end) events.

(** The payloads the handlers have taken charge of: those already posted
    and those still waiting for their sound. *)
Definition accounted (s : State) : list string :=
  map qrData s.(posted) ++ s.(beeps).

(** What holds of the cells in every state the screen can be in. *)
Definition consistent (s : State) : Prop :=
  (permissionPending s = true -> hasPermission s = None)
  /\ (isScannerVisible s = true -> hasPermission s = Some true)
  /\ (scanned s = true -> isScannerVisible s = true)
  /\ isLoading s = coursesPending s
  /\ (coursesPending s = true -> courses s = [] /\ error s = None)
  /\ (showErrorModal s = true -> errorMessage s <> "")
  /\ Forall (fun r => studentId r = currentUserId) (posted s)
  /\ (route s = None \/ route s = Some "/").

(** *** Sample data *)

(** The state after a list of events, from mount. *)
Definition after (events : list Event) : State :=
  fold_left (fun s e => handle e s) events init.

Definition enrolled_course : Course :=
  mkCourse "c1" "CS101" "Algorithms"
           [mkSchedule ["Mon"; "Wed"] "09:00" "10:30"]
           (Some (mkLecturer "Ada" "King"))
           (Some ["u0"; currentUserId]).

Definition foreign_course : Course :=
  mkCourse "c2" "MA201" "Algebra" [] None (Some ["u0"]).

Definition unlisted_course : Course :=
  mkCourse "c3" "PH301" "Optics" [] None None.

Definition fetched : list Course :=
  [foreign_course; enrolled_course; unlisted_course].

(** The font and the courses load, the permission is granted, the scan
    button is pressed. *)
Definition open_scanner : list Event :=
  [FontsSettled true;
   CoursesSettled (Resolved (CourseArray (map Some fetched)));
   PermissionSettled (Resolved "granted");
   PressScan].

(** ... a code is decoded ... *)
Definition decode_token : list Event :=
  open_scanner ++ [Decode "TOKEN123"].

(** ... and, the sound played, the POST is on its way. *)
Definition post_token : list Event :=
  decode_token ++ [BeepSettled 0 (Resolved 1%nat)].

(** 'Scan Again' is pressed while the first handler still awaits the
    sound, and a second code is decoded. *)
Definition scan_again_early : list Event :=
  decode_token ++ [PressScanAgain; Decode "TOKEN456"].

(** The two sounds settle, one after the other. *)
Definition both_sounds_settle : list Event :=
  [BeepSettled 0 (Resolved 1%nat); BeepSettled 0 (Resolved 2%nat)].

(** The course request fails. *)
Definition courses_unreachable : list Event :=
  [FontsSettled true; CoursesSettled (Rejected "Network request failed")].

(** The permission request itself fails. *)
Definition permission_request_fails : list Event :=
  [FontsSettled true; PermissionSettled (Rejected "Camera unavailable")].

(** The user logs out from the header. *)
Definition log_out : list Event :=
  [FontsSettled true; PressLogout; PressConfirmLogout].

(** Both POSTs are accepted, the second one 1500 ms after the first. *)
Definition two_successes : list Event :=
  scan_again_early ++ both_sounds_settle
  ++ [FetchSettled 0 (Resolved (mkResponse 200 (Parsed (JObj []))));
      Tick 1500;
      FetchSettled 0 (Resolved (mkResponse 200 (Parsed (JObj []))))].

(** The camera emits the same code twice before the re-render that
    follows the first decode; then the render, then the two sounds. *)
Definition overlapping_decodes : list Event :=
  open_scanner
  ++ [Decode "TOKEN123"; Decode "TOKEN123"; Render;
      BeepSettled 0 (Resolved 1%nat); BeepSettled 0 (Resolved 2%nat)].

(** The permission is refused instead. *)
Definition refused_permission : list Event :=
  [FontsSettled true;
   CoursesSettled (Resolved (CourseArray (map Some fetched)));
   PermissionSettled (Resolved "denied")].

(** The hardware back button is pressed while the POST is on its way,
    then the server accepts the scan. *)
Definition back_while_posting (r : Response) : list Event :=
  post_token ++ [HardwareBack; FetchSettled 0 (Resolved r)].

Definition accepted : Response :=
  mkResponse 200 (Parsed (JObj [("success", JBool true)])).

Definition session_expired : Response :=
  mkResponse 400 (Parsed (JObj [("message", JStr "Session expired")])).

Definition no_content : Response :=
  mkResponse 204 (Unparsable "JSON Parse error: Unexpected end of input").

Definition rejected_as_network : Response :=
  mkResponse 503 (Parsed (JObj [("message", JStr "Network request failed")])).

(** ** Course list loader: properties *)

Lemma includes_In (ids : list string) (x : string) :
  includes ids x = true <-> In x ids.
Proof.
  induction ids as [|y rest IH]; simpl.
  - split; [discriminate | contradiction].
  - rewrite orb_true_iff, IH, String.eqb_eq. tauto.
Qed.

Lemma is_enrolled_has_member (course : Course) :
  is_enrolled course = true <-> has_member course.
Proof.
  unfold is_enrolled, has_member.
  destruct (students course) as [ids|].
  - rewrite includes_In. split.
    + intros H. exists ids. auto.
    + intros [ids' [E H]]. injection E as <-. exact H.
  - split; [discriminate | intros [ids [E _]]; discriminate].
Qed.

Lemma not_enrolled_no_member (course : Course) :
  is_enrolled course = false <-> ~ has_member course.
Proof.
  rewrite <- is_enrolled_has_member.
  destruct (is_enrolled course); split; congruence.
Qed.

(** On an array without holes the callback never throws, and the result
    is the list filter. *)
Lemma filter_enrolled_total (C : list Course) :
  filter_enrolled (map Some C) = Some (filter is_enrolled C).
Proof.
  induction C as [|c C IH]; simpl.
  - reflexivity.
  - rewrite IH. destruct (is_enrolled c); reflexivity.
Qed.

(** The callback throws exactly when some entry is a hole. *)
Lemma filter_enrolled_throws (entries : list (option Course)) :
  filter_enrolled entries = None <-> In None entries.
Proof.
  induction entries as [|[c|] rest IH]; simpl.
  - split; [discriminate | contradiction].
  - destruct (filter_enrolled rest) as [kept|].
    + split; [discriminate|].
      intros [E|H]; [discriminate|]. apply IH in H. discriminate.
    + split; [|reflexivity]. intros _. right. apply IH. reflexivity.
  - split; auto.
Qed.

Lemma filter_is_subsequence (C : list Course) :
  SubsequenceWhere has_member C (filter is_enrolled C).
Proof.
  induction C as [|c C IH]; simpl.
  - constructor.
  - destruct (is_enrolled c) eqn:E.
    + apply sw_keep; [apply is_enrolled_has_member, E | exact IH].
    + apply sw_drop; [apply not_enrolled_no_member, E | exact IH].
Qed.

Lemma subsequence_unique (P : Course -> Prop) (C L1 L2 : list Course) :
  SubsequenceWhere P C L1 -> SubsequenceWhere P C L2 -> L1 = L2.
Proof.
  intros H1. revert L2.
  induction H1 as [|c C L HP H IH|c C L HP H IH]; intros L2 H2;
    inversion H2; subst; try contradiction.
  - reflexivity.
  - f_equal. apply IH. assumption.
  - apply IH. assumption.
Qed.

Lemma fetch_success_cells (kept : list Course) (o : Settled CoursesValue) (s : State) :
  enrolledCourses o = inr kept ->
  courses (fetchEnrolledCourses o s) = kept
  /\ error (fetchEnrolledCourses o s) = error s
  /\ isLoading (fetchEnrolledCourses o s) = false.
Proof.
  intros E. unfold fetchEnrolledCourses, fetchEnrolledCourses_resume.
  rewrite E. simpl. auto.
Qed.

(** C1. After a fetch that yields the collection [C], the course list
    of the screen is [C] filtered by the membership test; it is the one
    and only subsequence of [C] that keeps, in the order of [C], exactly
    the courses whose student list contains the current user; and on a
    freshly mounted screen that list is what the scroll area shows (the
    empty-state view when it is empty). *)
Theorem displayed_courses_are_enrolled_subsequence (C : list Course) (s : State) :
  let o := Resolved (CourseArray (map Some C)) in
  courses (fetchEnrolledCourses o s) = filter is_enrolled C
  /\ (forall L, SubsequenceWhere has_member C L <-> L = courses (fetchEnrolledCourses o s))
  /\ courses (handle (CoursesSettled o) s) = filter is_enrolled C
  /\ courseArea (fetchEnrolledCourses o init)
     = match filter is_enrolled C with
       | [] => EmptyState
       | _ :: _ => Cards (filter is_enrolled C)
       end.
Proof.
  intros o.
  assert (E : enrolledCourses o = inr (filter is_enrolled C)).
  { unfold o, enrolledCourses. rewrite filter_enrolled_total. reflexivity. }
  destruct (fetch_success_cells _ o s E) as [Hc _].
  destruct (fetch_success_cells _ o init E) as [Hc0 [He0 Hl0]].
  repeat split.
  - exact Hc.
  - intros H. rewrite Hc.
    apply (subsequence_unique _ _ _ _ H (filter_is_subsequence C)).
  - intros ->. rewrite Hc. apply filter_is_subsequence.
  - unfold handle, fetchEnrolledCourses_resume. rewrite E. reflexivity.
  - unfold courseArea. rewrite Hl0, He0, Hc0. simpl.
    destruct (filter is_enrolled C); reflexivity.
Qed.

(** C10. A fetched course without a student list does not make the
    filter throw (the fetch still ends on its success path: no error is
    set, the list is replaced), the membership test answers [false] for
    it, and it is not in the displayed list. *)
Theorem absent_students_excluded (C : list Course) (c : Course) (s : State) :
  In c C ->
  students c = None ->
  let o := Resolved (CourseArray (map Some C)) in
  enrolledCourses o = inr (filter is_enrolled C)
  /\ is_enrolled c = false
  /\ error (fetchEnrolledCourses o s) = error s
  /\ ~ In c (courses (fetchEnrolledCourses o s)).
Proof.
  intros Hin Hnone o.
  assert (E : enrolledCourses o = inr (filter is_enrolled C)).
  { unfold o, enrolledCourses. rewrite filter_enrolled_total. reflexivity. }
  assert (Hc : is_enrolled c = false).
  { unfold is_enrolled. rewrite Hnone. reflexivity. }
  destruct (fetch_success_cells _ o s E) as [Hcs [He _]].
  repeat split; auto.
  rewrite Hcs. intros H. apply filter_In in H. destruct H as [_ H]. congruence.
Qed.

Lemma fetch_fails_catch (o : Settled CoursesValue) :
  FetchFails o <-> enrolledCourses o = inl tt.
Proof.
  split.
  - intros [m| |entries H]; simpl; try reflexivity.
    apply filter_enrolled_throws in H. rewrite H. reflexivity.
  - destruct o as [m|[|entries]]; simpl; intros H.
    + constructor.
    + constructor.
    + constructor. apply filter_enrolled_throws.
      destruct (filter_enrolled entries); [discriminate | reflexivity].
Qed.

(** C9. When [getCourses()] rejects, or what it yields is not an array
    of course objects, the error cell holds exactly 'Failed to fetch
    courses. Please try again.', that text is what the scroll area
    shows, the course list cell is what it was; and whatever the outcome
    of the fetch, the loading flag is false afterwards. *)
Theorem fetch_failure_surfaced (o : Settled CoursesValue) (s : State) :
  FetchFails o ->
  error (fetchEnrolledCourses o s) = Some "Failed to fetch courses. Please try again."
  /\ courseArea (fetchEnrolledCourses o s)
     = ErrorBanner "Failed to fetch courses. Please try again."
  /\ courses (fetchEnrolledCourses o s) = courses s
  /\ (forall o' s', isLoading (fetchEnrolledCourses o' s') = false).
Proof.
  intros H. apply fetch_fails_catch in H.
  unfold fetchEnrolledCourses, fetchEnrolledCourses_resume, courseArea.
  rewrite H. simpl. repeat split.
Qed.

(** ** Camera permission: properties *)

(** C6 (as the code has it). Pressing the scan button while the permission
    is unknown only raises the alert 'Requesting camera permission...' and
    leaves the scanner as it was; while it is denied it only raises the
    alert 'No access to camera' (no full stop) and leaves the scanner as it
    was; while it is granted it opens the scanner and raises no alert. *)
Theorem scan_press_by_permission (s : State) :
  let unknown := setHasPermission None s in
  let denied := setHasPermission (Some false) s in
  let granted := setHasPermission (Some true) s in
  (handle PressScan unknown = alert "Error" "Requesting camera permission..." unknown
   /\ isScannerVisible (handle PressScan unknown) = isScannerVisible s)
  /\ (handle PressScan denied = alert "Error" "No access to camera" denied
      /\ isScannerVisible (handle PressScan denied) = isScannerVisible s)
  /\ (isScannerVisible (handle PressScan granted) = true
      /\ alerts (handle PressScan granted) = alerts s).
Proof.
  simpl. repeat split.
Qed.

(** ** Submission: properties *)

Lemma settle_success (n : nat) (request : ScanRequest) (o : Settled Response) (s : State) :
  nth_error (inflight s) n = Some request ->
  submission o = inr tt ->
  handle (FetchSettled n o) s = on_success (withInflight (drop_nth n (inflight s)) s).
Proof.
  intros Hn Ho. simpl. unfold handleBarCodeScanned_settle.
  rewrite Hn, Ho. reflexivity.
Qed.

Lemma settle_failure (n : nat) (request : ScanRequest) (o : Settled Response)
      (m : string) (s : State) :
  nth_error (inflight s) n = Some request ->
  submission o = inl m ->
  handle (FetchSettled n o) s = on_failure m (withInflight (drop_nth n (inflight s)) s).
Proof.
  intros Hn Ho. simpl. unfold handleBarCodeScanned_settle.
  rewrite Hn, Ho. reflexivity.
Qed.

Lemma submission_success_iff (r : Response) :
  submission (Resolved r) = inr tt <-> ok r = true /\ exists v, body r = Parsed v.
Proof.
  unfold submission. destruct (body r) as [m|v].
  - split; [discriminate | intros [_ [v E]]; discriminate].
  - destruct (ok r); simpl.
    + split; [intros _; split; [reflexivity | exists v; reflexivity] | reflexivity].
    + split; [|intros [E _]; discriminate].
      destruct (message_of v); discriminate.
Qed.

Lemma submission_not_ok (r : Response) :
  ok r = false -> exists m, submission (Resolved r) = inl m.
Proof.
  intros H. unfold submission. destruct (body r) as [m|v].
  - exists m. reflexivity.
  - rewrite H. simpl. destruct (message_of v) as [m|v']; eexists; reflexivity.
Qed.

(** C3 (as the code has it). A response is a success exactly when its
    status is 2xx and its body parses as JSON; then the success dialog is
    shown.  A response whose body is absent or not JSON ends in the error
    dialog with the parser's message, whatever its status; and every
    non-2xx response ends in the error dialog. *)
Theorem submission_outcome_by_status_and_body
        (r : Response) (n : nat) (request : ScanRequest) (s : State) :
  nth_error (inflight s) n = Some request ->
  let s' := handle (FetchSettled n (Resolved r)) s in
  (submission (Resolved r) = inr tt <-> ok r = true /\ exists v, body r = Parsed v)
  /\ (ok r = true -> (exists v, body r = Parsed v) ->
      showSuccessModal s' = true /\ showErrorModal s' = showErrorModal s)
  /\ (forall m, body r = Unparsable m ->
      showErrorModal s' = true /\ showSuccessModal s' = showSuccessModal s
      /\ errorMessage s' = displayed_text m)
  /\ (ok r = false ->
      showErrorModal s' = true /\ showSuccessModal s' = showSuccessModal s).
Proof.
  intros Hn s'. split; [apply submission_success_iff|]. split; [|split].
  - intros Hok Hv.
    assert (E : submission (Resolved r) = inr tt) by (apply submission_success_iff; auto).
    unfold s'. rewrite (settle_success _ _ _ _ Hn E). split; reflexivity.
  - intros m Hb.
    assert (E : submission (Resolved r) = inl m) by (unfold submission; rewrite Hb; reflexivity).
    unfold s'. rewrite (settle_failure _ _ _ _ _ Hn E). repeat split.
  - intros Hok. destruct (submission_not_ok r Hok) as [m E].
    unfold s'. rewrite (settle_failure _ _ _ _ _ Hn E). split; reflexivity.
Qed.

Lemma displayed_text_cases (m : string) :
  (m = "Network request failed" -> displayed_text m = network_text)
  /\ (m = "" -> displayed_text m = fallback_text)
  /\ (m <> "Network request failed" -> m <> "" -> displayed_text m = m).
Proof.
  unfold displayed_text. repeat split.
  - intros ->. reflexivity.
  - intros ->. reflexivity.
  - intros H1 H2. apply String.eqb_neq in H1, H2. rewrite H1, H2. reflexivity.
Qed.

Lemma rejected_with_message (st : Z) (members : list (string * Json)) (M : string) :
  ok (mkResponse st (Parsed (JObj members))) = false ->
  member "message" members = Some (JStr M) ->
  submission (Resolved (mkResponse st (Parsed (JObj members))))
  = inl (if String.eqb M "" then fallback_text else M).
Proof.
  intros Hok Hm. unfold submission. simpl body. rewrite Hok. simpl.
  rewrite Hm. simpl. destruct (String.eqb M ""); reflexivity.
Qed.

(** C4 (as the code has it). The text shown in the error dialog is a
    function of the message of the error that reached [catch]: the message
    'Network request failed' (the rejection of [fetch] when the server
    cannot be reached) shows the fixed connection text, an empty message
    shows the fallback 'Failed to record attendance', any other message
    shows itself.  For a non-2xx response that message is: the body's
    [message] M when M is a non-empty string; the fallback when the body
    is a JSON value other than [null] without a [message], or with a
    falsy one; the engine's conversion of a truthy [message] that is not a
    string; and the engine's [TypeError] text when the body is [null].
    For any other failure it is the text [fetch] rejects with, or the
    parser's text for a body that does not parse. *)
Theorem failure_message_by_error_text (n : nat) (request : ScanRequest) (s : State) :
  nth_error (inflight s) n = Some request ->
  let shown o := errorMessage (handle (FetchSettled n o) s) in
  shown (Rejected "Network request failed")
  = "Unable to connect to the server. Please check your internet connection."
  /\ (forall st members M,
        ok (mkResponse st (Parsed (JObj members))) = false ->
        member "message" members = Some (JStr M) ->
        shown (Resolved (mkResponse st (Parsed (JObj members))))
        = if String.eqb M "Network request failed"
          then "Unable to connect to the server. Please check your internet connection."
          else if String.eqb M "" then "Failed to record attendance" else M)
  /\ (forall st members,
        ok (mkResponse st (Parsed (JObj members))) = false ->
        member "message" members = None ->
        shown (Resolved (mkResponse st (Parsed (JObj members))))
        = "Failed to record attendance")
  /\ (forall m,
        m <> "Network request failed" -> m <> "" ->
        shown (Rejected m) = m
        /\ forall st, shown (Resolved (mkResponse st (Unparsable m))) = m)
  /\ shown (Rejected "") = "Failed to record attendance"
  /\ (forall o m,
        submission o = inl m ->
        shown o
        = if String.eqb m "Network request failed"
          then "Unable to connect to the server. Please check your internet connection."
          else if String.eqb m "" then "Failed to record attendance" else m)
  /\ (forall st,
        ok (mkResponse st (Parsed JNull)) = false ->
        submission (Resolved (mkResponse st (Parsed JNull))) = inl null_access_text
        /\ shown (Resolved (mkResponse st (Parsed JNull))) = displayed_text null_access_text)
  /\ (forall st v,
        ok (mkResponse st (Parsed v)) = false ->
        (forall members, v <> JObj members) -> v <> JNull ->
        shown (Resolved (mkResponse st (Parsed v))) = "Failed to record attendance")
  /\ (forall st members m,
        ok (mkResponse st (Parsed (JObj members))) = false ->
        member "message" members = Some m ->
        shown (Resolved (mkResponse st (Parsed (JObj members))))
        = if truthy m
          then displayed_text (error_text m)
          else "Failed to record attendance").
Proof.
  intros Hn shown.
  assert (S : forall o m, submission o = inl m -> shown o = displayed_text m).
  { intros o m E. unfold shown. rewrite (settle_failure _ _ _ _ _ Hn E). reflexivity. }
  split; [|split; [|split; [|split; [|split; [|split; [|split; [|split]]]]]]].
  - apply (S _ "Network request failed"). reflexivity.
  - intros st members M Hok Hm.
    rewrite (S _ _ (rejected_with_message _ _ _ Hok Hm)).
    unfold displayed_text.
    destruct (String.eqb M "") eqn:E.
    + apply String.eqb_eq in E. subst M. reflexivity.
    + rewrite E. reflexivity.
  - intros st members Hok Hm.
    apply (S _ fallback_text).
    unfold submission. simpl body. rewrite Hok. simpl. rewrite Hm. reflexivity.
  - intros m H1 H2.
    destruct (displayed_text_cases m) as [_ [_ D]].
    split; [|intros st]; rewrite (S _ m) by reflexivity; auto.
  - apply (S _ ""). reflexivity.
  - intros o m E. rewrite (S _ _ E). reflexivity.
  - intros st Hok.
    assert (E : submission (Resolved (mkResponse st (Parsed JNull))) = inl null_access_text).
    { unfold submission. simpl body. rewrite Hok. reflexivity. }
    split; [exact E | apply (S _ _ E)].
  - intros st v Hok Ho Hn'.
    apply (S _ fallback_text).
    unfold submission. simpl body. rewrite Hok. simpl.
    destruct v; try reflexivity.
    + contradiction Hn'. reflexivity.
    + contradiction (Ho members). reflexivity.
  - intros st members m Hok Hm.
    assert (E : submission (Resolved (mkResponse st (Parsed (JObj members))))
                = inl (if truthy m then error_text m else fallback_text)).
    { unfold submission. simpl body. rewrite Hok. simpl. rewrite Hm. reflexivity. }
    rewrite (S _ _ E). destruct (truthy m); reflexivity.
Qed.

(** ** Scan flow: properties *)

(** Case analysis on the code of an event: the handlers are unfolded and
    what they branch on is destructed. *)
Ltac open_handler :=
  repeat match goal with
  | |- context [fetchEnrolledCourses_resume ?o _] =>
      unfold fetchEnrolledCourses_resume; destruct (enrolledCourses o) eqn:?
  | |- context [checkPermissions_resume ?o _] =>
      unfold checkPermissions_resume; destruct o
  | |- context [handleScanPress ?s] =>
      unfold handleScanPress; destruct (hasPermission s) as [[|]|] eqn:?
  | |- context [handleBarCodeScanned_post ?n ?c ?s] =>
      unfold handleBarCodeScanned_post;
      destruct (nth_error (beeps s) n) eqn:?; [destruct c|]
  | |- context [handleBarCodeScanned_settle ?n ?o ?s] =>
      unfold handleBarCodeScanned_settle;
      destruct (nth_error (inflight s) n) eqn:?; [destruct (submission o) eqn:?|]
  | |- context [if callbackBound ?s then _ else _] => destruct (callbackBound s) eqn:?
  | |- context [match nth_error (timers ?s) ?n with _ => _ end] =>
      destruct (nth_error (timers s) n) eqn:?
  | |- context [if ?loaded then withFontsLoaded true _ else _] => destruct loaded
  end.

Ltac by_cases e := destruct e; cbn [handle enabled] in *; open_handler; simpl.


Lemma drop_nth_length {A : Type} (n : nat) (l : list A) (x : A) :
  nth_error l n = Some x -> S (List.length (drop_nth n l)) = List.length l.
Proof.
  revert n. induction l as [|y l IH]; intros [|n] H; simpl in *; try discriminate.
  - reflexivity.
  - f_equal. apply IH. exact H.
Qed.

Lemma run_app (xs ys : list Event) (s : State) :
  run (xs ++ ys) s = match run xs s with Some s' => run ys s' | None => None end.
Proof.
  revert s. induction xs as [|e xs IH]; intros s; simpl.
  - reflexivity.
  - destruct (enabled e s); [apply IH | reflexivity].
Qed.

(** An event that is not one of the four clearing ones leaves the latch
    alone, or sets it. *)
Lemma latch_kept (e : Event) (s : State) :
  clears_latch e = false ->
  scanned (handle e s) = scanned s \/ scanned (handle e s) = true.
Proof.
  destruct e; simpl; intros H; try discriminate; try (left; reflexivity).
  - left. unfold fetchEnrolledCourses_resume. destruct (enrolledCourses o); reflexivity.
  - left. destruct o; reflexivity.
  - left. unfold handleScanPress. destruct (hasPermission s) as [[|]|]; reflexivity.
  - destruct (callbackBound s); [right; reflexivity | left; reflexivity].
  - left. unfold handleBarCodeScanned_post.
    destruct (nth_error (beeps s) n); [destruct created|]; reflexivity.
  - left. unfold handleBarCodeScanned_settle.
    destruct (nth_error (inflight s) n); [|reflexivity].
    destruct (submission o); [discriminate | reflexivity].
  - left. destruct loaded; reflexivity.
Qed.

(** C7 (as the code has it). An event that finds the latch set and leaves
    it cleared is one of four: 'Scan Again', the back arrow that closes the
    scanner, the success timeout, or the settling of a submission that ends
    in [catch]. *)
Theorem latch_cleared_only_by (e : Event) (s : State) :
  scanned s = true ->
  scanned (handle e s) = false ->
  e = PressScanAgain
  \/ e = PressCloseScanner
  \/ (exists n, e = TimerFire n)
  \/ (exists n o m, e = FetchSettled n o /\ submission o = inl m).
Proof.
  intros Hset Hclr.
  destruct (clears_latch e) eqn:C.
  - destruct e; simpl in C; try discriminate; eauto.
    destruct (submission o) as [m|] eqn:E; [|discriminate].
    right. right. right. exists n, o, m. auto.
  - destruct (latch_kept e s C) as [H|H]; congruence.
Qed.

Lemma posted_grows (e : Event) (s : State) :
  exists more, posted (handle e s) = posted s ++ more.
Proof.
  by_cases e; try (exists []; rewrite app_nil_r; reflexivity).
  all: eexists; reflexivity.
Qed.

Lemma run_posted_grows (events : list Event) (s s' : State) :
  run events s = Some s' -> exists more, posted s' = posted s ++ more.
Proof.
  revert s. induction events as [|e events IH]; intros s; simpl.
  - intros E. injection E as <-. exists []. rewrite app_nil_r. reflexivity.
  - destruct (enabled e s); [|discriminate]. intros H.
    destruct (IH _ H) as [m2 E2]. destruct (posted_grows e s) as [m1 E1].
    exists (m1 ++ m2). rewrite E2, E1, app_assoc. reflexivity.
Qed.

(** One more handler per decode delivered, one POST per handler: the POSTs
    issued and the handlers still waiting grow by the decodes only. *)
Lemma handlers_step (e : Event) (s : State) :
  enabled e s = true ->
  (List.length (posted (handle e s)) + List.length (beeps (handle e s))
   = List.length (posted s) + List.length (beeps s) + decodes [e])%nat.
Proof.
  unfold decodes. intros En. revert En.
  by_cases e; intros En; rewrite ?length_app; simpl; try lia;
    try discriminate.
  all: match goal with
       | H : nth_error _ _ = Some _ |- _ => apply drop_nth_length in H
       end; lia.
Qed.

Lemma decodes_cons (e : Event) (events : list Event) :
  decodes (e :: events) = (decodes [e] + decodes events)%nat.
Proof.
  unfold decodes. simpl. destruct (is_decode e); reflexivity.
Qed.

Lemma handlers_run (events : list Event) (s s' : State) :
  run events s = Some s' ->
  (List.length (posted s') + List.length (beeps s')
   = List.length (posted s) + List.length (beeps s) + decodes events)%nat.
Proof.
  revert s. induction events as [|e events IH]; intros s; cbn [run].
  - intros E. injection E as <-. unfold decodes. simpl. lia.
  - destruct (enabled e s) eqn:En; [|discriminate]. intros R.
    rewrite (IH _ R), (handlers_step e s En), (decodes_cons e events). lia.
Qed.

Lemma unrendered_step (e : Event) (s : State) :
  is_decode e = false ->
  unrendered s = false ->
  unrendered (handle e s) = false.
Proof.
  intros D U. revert D. by_cases e; intros D; auto; discriminate.
Qed.

(** Without a clearing event the latch, once set, stays set; and once a
    render has seen it set, no decode is delivered. *)
Lemma run_latched (events : list Event) (s s' : State) :
  run events s = Some s' ->
  forallb keeps_latch events = true ->
  scanned s = true ->
  scanned s' = true
  /\ (unrendered s = false -> decodes events = 0%nat /\ unrendered s' = false).
Proof.
  revert s. induction events as [|e events IH]; intros s; cbn [run forallb].
  - intros E _ L. injection E as <-. auto.
  - destruct (enabled e s) eqn:En; [|discriminate]. intros R K L.
    apply andb_true_iff in K. destruct K as [Ke K].
    unfold keeps_latch in Ke. apply negb_true_iff in Ke.
    assert (L' : scanned (handle e s) = true).
    { destruct (latch_kept e s Ke) as [H|H]; congruence. }
    destruct (IH _ R K L') as [F G]. split; [exact F|].
    intros U.
    assert (D : is_decode e = false).
    { destruct e; try reflexivity.
      simpl in En. unfold callbackBound in En. rewrite L, U in En.
      rewrite andb_false_r in En. discriminate. }
    destruct (G (unrendered_step e s D U)) as [G1 G2].
    split; [|exact G2].
    rewrite decodes_cons, G1. unfold decodes. simpl. rewrite D. reflexivity.
Qed.

Lemma run_decoded (events : list Event) (s s' : State) :
  run events s = Some s' ->
  forallb keeps_latch events = true ->
  (1 <= decodes events)%nat ->
  scanned s' = true.
Proof.
  revert s. induction events as [|e events IH]; intros s; cbn [run forallb].
  - intros _ _ D. unfold decodes in D. simpl in D. lia.
  - destruct (enabled e s) eqn:En; [|discriminate]. intros R K D.
    apply andb_true_iff in K. destruct K as [Ke K].
    destruct (is_decode e) eqn:De.
    + assert (L : scanned (handle e s) = true).
      { destruct e; try discriminate.
        simpl in En |- *. apply andb_true_iff in En. destruct En as [_ B].
        rewrite B. reflexivity. }
      apply (run_latched _ _ _ R K L).
    + apply (IH _ R K). rewrite decodes_cons in D.
      unfold decodes in D at 1. simpl in D. rewrite De in D. exact D.
Qed.

(** C2 (as the code has it). The handler sets the latch in the step that
    delivers the decode, before the sound it awaits and before any POST is
    issued.  The decode callback is unbound by every render that sees the
    latch set: from such a render on, and until a clearing event, no decode
    reaches the handler.  Decodes that arrive before that render each run
    the handler again.  Every run of the handler issues one POST once its
    sound settles, so in a run without a clearing event the POSTs issued
    are at most the handlers already waiting on their sound plus the
    decodes delivered; none is issued when the latch is set and rendered
    and no handler is waiting. *)
Theorem latch_admits_one_submission :
  (forall s data,
      scanned s = true -> unrendered s = false ->
      enabled (Decode data) s = false /\ handle (Decode data) s = s)
  /\ (forall s data,
        enabled (Decode data) s = true ->
        scanned (handle (Decode data) s) = true
        /\ beeps (handle (Decode data) s) = beeps s ++ [data]
        /\ posted (handle (Decode data) s) = posted s
        /\ inflight (handle (Decode data) s) = inflight s)
  /\ (forall events s s',
        run events s = Some s' ->
        forallb keeps_latch events = true ->
        (List.length (posted s')
         <= List.length (posted s) + List.length (beeps s) + decodes events)%nat
        /\ (scanned s = true -> unrendered s = false ->
            decodes events = 0%nat
            /\ scanned s' = true
            /\ (beeps s = [] -> posted s' = posted s)))
  /\ (forall before later s s',
        run (before ++ Render :: later) s = Some s' ->
        forallb keeps_latch (before ++ Render :: later) = true ->
        scanned s = true \/ (1 <= decodes before)%nat ->
        decodes later = 0%nat).
Proof.
  split; [|split; [|split]].
  - intros s data L U. simpl. unfold callbackBound. rewrite L, U.
    simpl. rewrite andb_false_r. auto.
  - intros s data En. simpl in *. apply andb_true_iff in En. destruct En as [_ B].
    rewrite B. repeat split.
  - intros events s s' R K.
    pose proof (handlers_run _ _ _ R) as H.
    split; [lia|].
    intros L U. destruct (run_latched _ _ _ R K L) as [L' G].
    destruct (G U) as [D U']. split; [exact D|]. split; [exact L'|].
    intros B. rewrite B, D in H. simpl in H.
    destruct (run_posted_grows _ _ _ R) as [more E].
    rewrite E in *. rewrite length_app in H.
    destruct more as [|x more]; [apply app_nil_r | simpl in H; lia].
  - intros before later s s' R K C.
    rewrite run_app in R. rewrite forallb_app in K.
    apply andb_true_iff in K. destruct K as [Kb Kl].
    destruct (run before s) as [s1|] eqn:R1; [|discriminate].
    assert (L1 : scanned s1 = true).
    { destruct C as [L|D].
      - apply (run_latched _ _ _ R1 Kb L).
      - apply (run_decoded _ _ _ R1 Kb D). }
    cbn [run forallb] in R, Kl.
    destruct (enabled Render s1); [|discriminate].
    apply andb_true_iff in Kl. destruct Kl as [_ Kl].
    destruct (run_latched _ _ _ R Kl L1) as [_ G].
    apply G. reflexivity.
Qed.

(** While only time passes, no cell changes and the clock advances by the
    sum of the ticks. *)
Lemma ticks_run (ds : list Z) (s s' : State) :
  run (map Tick ds) s = Some s' ->
  dialogFlags s' = dialogFlags s
  /\ isScannerVisible s' = isScannerVisible s
  /\ scanned s' = scanned s
  /\ timers s' = timers s
  /\ now s' = now s + total ds
  /\ 0 <= total ds.
Proof.
  revert s. induction ds as [|d ds IH]; intros s; simpl.
  - intros E. injection E as <-. repeat split; auto; lia.
  - destruct (0 <=? d) eqn:Hd; [|discriminate].
    intros R. apply IH in R. simpl in R.
    destruct R as (F & V & L & T & N & P).
    apply Z.leb_le in Hd.
    repeat split; auto; lia.
Qed.

(** C5 (as the code has it). When a submission succeeds, the success
    dialog is shown and a timeout is armed 2000 ms ahead; nothing cancels
    it.  While only time passes, the dialog, the scanner and the latch
    stay as they are, however long.  A timeout runs only once its due time
    is reached, at that moment or later, and then hides the dialog, closes
    the scanner and clears the latch.  So, when no timeout of an earlier
    success is pending, the dialog is open for 2000 ms at least; it can be
    closed at any time from then on.  (With no other dialog open, the
    dialog state goes from success to none.) *)
Theorem success_dialog_closes_after_delay
        (n : nat) (request : ScanRequest) (o : Settled Response) (s : State) :
  nth_error (inflight s) n = Some request ->
  submission o = inr tt ->
  let s1 := handle (FetchSettled n o) s in
  (showSuccessModal s1 = true
   /\ timers s1 = timers s ++ [now s + 2000]
   /\ (showErrorModal s = false -> showLogoutConfirm s = false ->
       activeDialogs s1 = [SuccessDialog]))
  /\ (forall ds s',
        run (map Tick ds) s1 = Some s' ->
        showSuccessModal s' = true
        /\ isScannerVisible s' = isScannerVisible s
        /\ scanned s' = scanned s
        /\ timers s' = timers s1)
  /\ (timers s = [] ->
      forall ds k s',
        run (map Tick ds ++ [TimerFire k]) s1 = Some s' ->
        2000 <= total ds
        /\ now s' = now s + total ds
        /\ showSuccessModal s' = false
        /\ isScannerVisible s' = false
        /\ scanned s' = false
        /\ (showErrorModal s = false -> showLogoutConfirm s = false ->
            activeDialogs s' = []))
  /\ (forall d,
        2000 <= d ->
        exists s',
          run [Tick d; TimerFire (List.length (timers s))] s1 = Some s'
          /\ showSuccessModal s' = false
          /\ isScannerVisible s' = false
          /\ scanned s' = false)
  /\ (forall k s2,
        enabled (TimerFire k) s2 = true ->
        (exists due, nth_error (timers s2) k = Some due /\ due <= now s2)
        /\ showSuccessModal (handle (TimerFire k) s2) = false
        /\ isScannerVisible (handle (TimerFire k) s2) = false
        /\ scanned (handle (TimerFire k) s2) = false).
Proof.
  intros Hn Ho s1.
  assert (E1 : s1 = on_success (withInflight (drop_nth n (inflight s)) s))
    by (apply (settle_success _ _ _ _ Hn Ho)).
  assert (T1 : timers s1 = timers s ++ [now s + 2000]) by (rewrite E1; reflexivity).
  assert (N1 : now s1 = now s) by (rewrite E1; reflexivity).
  assert (F1 : dialogFlags s1 = (true, showErrorModal s, showLogoutConfirm s))
    by (rewrite E1; reflexivity).
  assert (V1 : isScannerVisible s1 = isScannerVisible s) by (rewrite E1; reflexivity).
  assert (L1 : scanned s1 = scanned s) by (rewrite E1; reflexivity).
  unfold dialogFlags in F1. injection F1 as FS FE FL.
  split; [|split; [|split; [|split]]].
  - split; [exact FS|]. split; [exact T1|]. intros He Hl. unfold activeDialogs.
    rewrite FS, FE, FL, He, Hl. reflexivity.
  - intros ds s' R. apply ticks_run in R.
    destruct R as (F & V & L & T & N & P).
    unfold dialogFlags in F. injection F as FS' _ _.
    repeat split; congruence.
  - intros Ht ds k s' R. rewrite run_app in R.
    destruct (run (map Tick ds) s1) as [s2|] eqn:R2; [|discriminate].
    apply ticks_run in R2. destruct R2 as (F & V & L & T & N & P).
    unfold dialogFlags in F. injection F as FS' FE' FL'.
    simpl in R. rewrite T, T1, Ht in R.
    destruct k as [|k]; simpl in R; [|destruct k; discriminate].
    destruct (now s + 2000 <=? now s2) eqn:Due; [|discriminate].
    apply Z.leb_le in Due. injection R as <-. simpl.
    repeat split; try lia.
    intros He Hl. unfold activeDialogs. simpl.
    rewrite FE', FL', FE, FL, He, Hl. reflexivity.
  - intros d Hd. cbn [run enabled handle].
    assert (P : (0 <=? d) = true) by (apply Z.leb_le; lia).
    rewrite P. cbn [timers withNow now].
    rewrite T1, nth_error_app2, Nat.sub_diag by apply Nat.le_refl. simpl.
    assert (Q : (now s + 2000 <=? now s1 + d) = true) by (apply Z.leb_le; lia).
    rewrite Q. eexists. repeat split.
  - intros k s2 En. simpl in *.
    destruct (nth_error (timers s2) k) as [due|]; [|discriminate].
    apply Z.leb_le in En. split; [exists due; auto|]. repeat split.
Qed.

(** ** Dialogs: properties *)

Ltac count_flags s :=
  simpl;
  destruct (showSuccessModal s), (showErrorModal s), (showLogoutConfirm s);
  simpl; lia.

(** C8 (as the code has it). No dialog is active on a fresh screen, and an
    event changes at most one of the three dialog flags: opening a dialog
    neither closes nor opens another one.  (Nothing keeps two flags from
    being set by two events.) *)
Theorem dialogs_change_one_at_a_time :
  activeDialogs init = []
  /\ forall (e : Event) (s : State),
      (flags_changed (dialogFlags s) (dialogFlags (handle e s)) <= 1)%nat.
Proof.
  split; [reflexivity|].
  intros e s. unfold dialogFlags.
  destruct e; cbn [handle].
  - unfold fetchEnrolledCourses_resume. destruct (enrolledCourses o); count_flags s.
  - unfold checkPermissions_resume. destruct o; count_flags s.
  - count_flags s.
  - count_flags s.
  - count_flags s.
  - count_flags s.
  - count_flags s.
  - unfold handleScanPress. destruct (hasPermission s) as [[|]|]; count_flags s.
  - count_flags s.
  - count_flags s.
  - destruct (callbackBound s); count_flags s.
  - unfold handleBarCodeScanned_post.
    destruct (nth_error (beeps s) n); [destruct created|]; count_flags s.
  - unfold handleBarCodeScanned_settle.
    destruct (nth_error (inflight s) n); [destruct (submission o)|]; count_flags s.
  - count_flags s.
  - count_flags s.
  - count_flags s.
  - count_flags s.
  - destruct (nth_error (timers s) n); count_flags s.
  - destruct loaded; count_flags s.
  - count_flags s.
Qed.

(** ** The screen as a whole: invariants *)

Lemma displayed_text_nonempty (m : string) : displayed_text m <> "".
Proof.
  unfold displayed_text.
  destruct (String.eqb m "Network request failed"); [discriminate|].
  destruct (String.eqb m "") eqn:E; [discriminate|].
  apply String.eqb_neq. exact E.
Qed.

Ltac keep_consistent :=
  simpl in *; repeat split; intros; auto; try discriminate; try congruence.

Lemma consistent_init : consistent init.
Proof.
  unfold consistent. simpl. repeat split; auto; discriminate.
Qed.

Lemma consistent_step (e : Event) (s : State) :
  enabled e s = true -> consistent s -> consistent (handle e s).
Proof.
  unfold consistent.
  intros En (P1 & P2 & P3 & P4 & P5 & P6 & P7 & P8).
  assert (Q5 : coursesPending s = true -> courses s = []) by (intros H; apply P5, H).
  assert (R5 : coursesPending s = true -> error s = None) by (intros H; apply P5, H).
  destruct e; cbn [handle enabled] in *.
  - unfold fetchEnrolledCourses_resume.
    destruct (enrolledCourses o); keep_consistent.
  - specialize (P1 En). unfold checkPermissions_resume.
    assert (V : isScannerVisible s = false).
    { destruct (isScannerVisible s); [|reflexivity].
      rewrite P1 in P2. discriminate (P2 eq_refl). }
    destruct o; keep_consistent.
  - keep_consistent.
  - unfold handleLogout. keep_consistent.
  - keep_consistent.
  - unfold handleConfirmLogout. keep_consistent.
  - keep_consistent.
  - unfold handleScanPress.
    destruct (hasPermission s) as [[|]|] eqn:H; keep_consistent;
      exfalso;
      match goal with
      | X : permissionPending s = true |- _ => discriminate (P1 X)
      | X : isScannerVisible s = true |- _ => discriminate (P2 X)
      end.
  - keep_consistent.
  - keep_consistent.
  - apply andb_true_iff in En. destruct En as [V L].
    rewrite L. keep_consistent.
  - unfold handleBarCodeScanned_post.
    destruct (nth_error (beeps s) n) as [data|]; [|keep_consistent].
    destruct created; keep_consistent; apply Forall_app; split; auto.
  - unfold handleBarCodeScanned_settle.
    destruct (nth_error (inflight s) n); [|keep_consistent].
    destruct (submission o) as [m|]; keep_consistent.
    apply displayed_text_nonempty.
  - keep_consistent.
  - keep_consistent.
  - keep_consistent.
  - keep_consistent.
  - destruct (nth_error (timers s) n); keep_consistent.
  - destruct loaded; keep_consistent.
  - keep_consistent.
Qed.

Lemma run_consistent (events : list Event) (s s' : State) :
  run events s = Some s' -> consistent s -> consistent s'.
Proof.
  revert s. induction events as [|e events IH]; intros s; simpl.
  - intros E. injection E as <-. auto.
  - destruct (enabled e s) eqn:En; [|discriminate].
    intros R C. apply (IH _ R). apply consistent_step; assumption.
Qed.

(** *** Permission and scanner *)

Lemma granted_step (e : Event) (s : State) :
  hasPermission (handle e s) = Some true ->
  hasPermission s = Some true \/ e = PermissionSettled (Resolved "granted").
Proof.
  by_cases e; auto.
  all: intros H; try congruence.
  injection H as H. apply String.eqb_eq in H. subst. auto.
Qed.

Lemma granted_run (events : list Event) (s s' : State) :
  run events s = Some s' ->
  hasPermission s' = Some true ->
  hasPermission s = Some true \/ In (PermissionSettled (Resolved "granted")) events.
Proof.
  revert s. induction events as [|e events IH]; intros s; simpl.
  - intros E. injection E as <-. auto.
  - destruct (enabled e s); [|discriminate]. intros R G.
    destruct (IH _ R G) as [H|H]; [|auto].
    destruct (granted_step _ _ H) as [H'|H']; auto.
Qed.

(** X1. Whenever the scanner is open, the camera permission is granted,
    and it is granted only because the permission request resolved with
    the status 'granted'. *)
Theorem scanner_requires_granted_permission (events : list Event) (s : State) :
  run events init = Some s ->
  isScannerVisible s = true ->
  hasPermission s = Some true
  /\ In (PermissionSettled (Resolved "granted")) events.
Proof.
  intros R V.
  destruct (run_consistent _ _ _ R consistent_init) as (_ & P2 & _).
  specialize (P2 V). split; [exact P2|].
  destruct (granted_run _ _ _ R P2) as [H|H]; [discriminate H | exact H].
Qed.

Lemma settled_permission_step (e : Event) (s : State) :
  enabled e s = true ->
  permissionPending s = false ->
  hasPermission (handle e s) = hasPermission s
  /\ permissionPending (handle e s) = false
  /\ (isScannerVisible (handle e s) = true ->
      isScannerVisible s = true \/ hasPermission s = Some true).
Proof.
  intros En Pn. revert En.
  by_cases e; intros En; repeat split; auto; try discriminate; congruence.
Qed.

(** X2. The permission request is made once: after it has settled, no
    event changes the permission cell, and if the answer was not 'granted'
    (a refusal, or a rejected request that left the cell unknown) a closed
    scanner stays closed whatever the user does. *)
Theorem permission_answer_is_final (events : list Event) (s s' : State) :
  permissionPending s = false ->
  run events s = Some s' ->
  hasPermission s' = hasPermission s
  /\ (hasPermission s <> Some true ->
      isScannerVisible s = false -> isScannerVisible s' = false).
Proof.
  revert s. induction events as [|e events IH]; intros s Pn; simpl.
  - intros E. injection E as <-. auto.
  - destruct (enabled e s) eqn:En; [|discriminate]. intros R.
    destruct (settled_permission_step e s En Pn) as (H1 & H2 & H3).
    destruct (IH _ H2 R) as [K1 K2].
    split; [congruence|].
    intros NG V. apply K2; [congruence|].
    destruct (isScannerVisible (handle e s)) eqn:V'; [|reflexivity].
    destruct (H3 eq_refl); congruence.
Qed.


(** *** Course area *)

(** X4. While the font is neither loaded nor failed the component shows
    nothing.  Once it has settled, the spinner is shown exactly while
    [getCourses()] is pending; and until that settles the course list is
    empty and no error is set. *)
Theorem spinner_while_courses_pending (events : list Event) (s : State) :
  run events init = Some s ->
  (screen s = Some Spinner <-> fontsReady s = true /\ coursesPending s = true)
  /\ (fontsReady s = false -> screen s = None)
  /\ (coursesPending s = true -> courses s = [] /\ error s = None).
Proof.
  intros R.
  destruct (run_consistent _ _ _ R consistent_init) as (_ & _ & _ & P4 & P5 & _).
  split; [|split; [|exact P5]].
  - unfold screen, courseArea. rewrite P4.
    destruct (fontsReady s); [|split; [discriminate | intros [H _]; discriminate]].
    destruct (coursesPending s); [split; auto|].
    split; [|intros [_ H]; discriminate].
    destruct (error s) as [t|]; [destruct (String.eqb t "")|];
      destruct (courses s); discriminate.
  - intros F. unfold screen. rewrite F. reflexivity.
Qed.

Lemma banner_step (e : Event) (s : State) :
  error s = Some fetch_error_text ->
  isLoading s = false ->
  error (handle e s) = Some fetch_error_text /\ isLoading (handle e s) = false.
Proof.
  intros He Hl. by_cases e; auto.
Qed.

(** X5. A failed course fetch is final.  No event clears the error cell,
    so the banner stays in place of the course list; and
    [fetchEnrolledCourses] itself never clears it: called again, even a
    fetch that succeeds leaves the banner showing. *)
Theorem fetch_error_is_permanent (events : list Event) (s s' : State) :
  error s = Some fetch_error_text ->
  isLoading s = false ->
  run events s = Some s' ->
  courseArea s' = ErrorBanner fetch_error_text
  /\ (forall o, courseArea (fetchEnrolledCourses o s') = ErrorBanner fetch_error_text).
Proof.
  revert s. induction events as [|e events IH]; intros s He Hl; simpl.
  - intros E. injection E as <-. split.
    + unfold courseArea. rewrite Hl, He. reflexivity.
    + intros o. unfold courseArea, fetchEnrolledCourses, fetchEnrolledCourses_resume.
      destruct (enrolledCourses o); simpl; [reflexivity|].
      rewrite He. reflexivity.
  - destruct (enabled e s); [|discriminate]. intros R.
    destruct (banner_step e s He Hl) as [He' Hl'].
    apply (IH _ He' Hl' R).
Qed.

(** *** Scan flow as a whole *)

Lemma drop_nth_perm {A : Type} (n : nat) (l : list A) (x : A) :
  nth_error l n = Some x -> Permutation l (x :: drop_nth n l).
Proof.
  revert n. induction l as [|y l IH]; intros [|n] H; simpl in *; try discriminate.
  - injection H as ->. apply Permutation_refl.
  - apply IH in H. apply Permutation_trans with (y :: x :: drop_nth n l).
    + apply perm_skip. exact H.
    + apply perm_swap.
Qed.

Lemma payloads_cons (e : Event) (events : list Event) :
  payloads (e :: events) = payloads [e] ++ payloads events.
Proof.
  unfold payloads. simpl. rewrite app_nil_r. reflexivity.
Qed.

Lemma accounted_step (e : Event) (s : State) :
  enabled e s = true ->
  Permutation (accounted (handle e s)) (accounted s ++ payloads [e]).
Proof.
  unfold accounted. intros En. revert En.
  by_cases e; intros En; rewrite ?app_nil_r; try apply Permutation_refl;
    try discriminate.
  - rewrite app_assoc. apply Permutation_refl.
  - rewrite andb_false_r in En. discriminate.
  - rewrite map_app. simpl. rewrite <- app_assoc. simpl.
    apply Permutation_app_head. apply Permutation_sym, drop_nth_perm. assumption.
  - rewrite map_app. simpl. rewrite <- app_assoc. simpl.
    apply Permutation_app_head. apply Permutation_sym, drop_nth_perm. assumption.
Qed.

Lemma accounted_run (events : list Event) (s s' : State) :
  run events s = Some s' ->
  Permutation (accounted s') (accounted s ++ payloads events).
Proof.
  revert s. induction events as [|e events IH]; intros s; cbn [run].
  - intros E. injection E as <-. simpl. rewrite app_nil_r. apply Permutation_refl.
  - destruct (enabled e s) eqn:En; [|discriminate]. intros R.
    apply Permutation_trans with (accounted (handle e s) ++ payloads events).
    + apply (IH _ R).
    + rewrite (payloads_cons e events), app_assoc. apply Permutation_app_tail.
      apply accounted_step. exact En.
Qed.

(** X6. Every payload delivered to the decode callback is taken up once:
    at any moment the payloads already posted, together with those whose
    handler still waits for its sound, are exactly the payloads decoded so
    far (none dropped, none posted twice); and every POST carries the
    current user's identifier. *)
Theorem every_decode_is_posted_once (events : list Event) (s : State) :
  run events init = Some s ->
  Permutation (map qrData (posted s) ++ beeps s) (payloads events)
  /\ Forall (fun r => studentId r = currentUserId) (posted s).
Proof.
  intros R. split.
  - apply (accounted_run _ _ _ R).
  - destruct (run_consistent _ _ _ R consistent_init) as (_ & _ & _ & _ & _ & _ & P7 & _).
    exact P7.
Qed.

(** X7. Closing the scanner cancels nothing: the POST stays in flight, and
    when it settles with the scanner closed the handler still opens its
    dialog (and, on success, still arms the timeout). *)
Theorem response_after_close_still_opens_dialog
        (n : nat) (request : ScanRequest) (o : Settled Response) (s : State) :
  nth_error (inflight s) n = Some request ->
  let closed := handle PressCloseScanner s in
  let s' := handle (FetchSettled n o) closed in
  inflight closed = inflight s
  /\ beeps closed = beeps s
  /\ isScannerVisible s' = false
  /\ (submission o = inr tt ->
      showSuccessModal s' = true /\ timers s' = timers s ++ [now s + 2000])
  /\ (forall m, submission o = inl m ->
      showErrorModal s' = true /\ errorMessage s' = displayed_text m).
Proof.
  intros Hn closed s'.
  assert (Hc : nth_error (inflight closed) n = Some request) by exact Hn.
  split; [reflexivity|]. split; [reflexivity|].
  split; [|split].
  - unfold s'. simpl. unfold handleBarCodeScanned_settle. simpl. rewrite Hn.
    destruct (submission o); reflexivity.
  - intros Ho. unfold s'. rewrite (settle_success _ _ _ _ Hc Ho). split; reflexivity.
  - intros m Ho. unfold s'. rewrite (settle_failure _ _ _ _ _ Hc Ho). split; reflexivity.
Qed.

(** X8. The error dialog never shows an empty message: whenever it is
    open, the message cell holds a non-empty text. *)
Theorem error_dialog_text_is_never_empty (events : list Event) (s : State) :
  run events init = Some s ->
  showErrorModal s = true ->
  errorMessage s <> "".
Proof.
  intros R.
  destruct (run_consistent _ _ _ R consistent_init) as (_ & _ & _ & _ & _ & P6 & _).
  exact P6.
Qed.

(** X9. A non-2xx response whose JSON body does not carry a usable message
    is still reported: a body that is a boolean, a number, a string or an
    array, and an object whose [message] is missing, [null], [false], [0]
    or the empty string, all give the fallback text; a body that is [null]
    makes the handler throw while reading [message], and the engine's text
    for that error is what reaches [catch]. *)
Theorem rejection_without_usable_message (st : Z) (v : Json) :
  ok (mkResponse st (Parsed v)) = false ->
  (v = JNull -> submission (Resolved (mkResponse st (Parsed v))) = inl null_access_text)
  /\ ((forall members, v <> JObj members) -> v <> JNull ->
      submission (Resolved (mkResponse st (Parsed v))) = inl "Failed to record attendance")
  /\ (forall members,
        v = JObj members ->
        (forall m, member "message" members = Some m -> truthy m = false) ->
        submission (Resolved (mkResponse st (Parsed v))) = inl "Failed to record attendance").
Proof.
  intros Hok. unfold submission. simpl body. rewrite Hok. simpl.
  split; [|split].
  - intros ->. reflexivity.
  - intros Ho Hn. destruct v; try reflexivity.
    + contradiction Hn. reflexivity.
    + contradiction (Ho members). reflexivity.
  - intros members -> Hm. simpl.
    destruct (member "message" members) as [m|] eqn:E; [|reflexivity].
    simpl. rewrite (Hm m eq_refl). reflexivity.
Qed.

(** X10. One successful scan, start to finish, from an open and idle
    scanner: the decode, its sound, an accepted POST, two seconds, the
    timeout.  The run goes through, exactly one POST is issued for the
    decoded payload, and it ends with the scanner closed, the latch clear,
    the success dialog hidden and nothing pending; the course list, the
    other dialogs and the error text are as they were. *)
Theorem successful_scan_round_trip
        (data : string) (created : Settled nat) (o : Settled Response) (s : State) :
  isScannerVisible s = true ->
  scanned s = false ->
  beeps s = [] ->
  inflight s = [] ->
  timers s = [] ->
  submission o = inr tt ->
  exists s',
    run [Decode data; BeepSettled 0 created; FetchSettled 0 o; Tick 2000; TimerFire 0] s
    = Some s'
    /\ isScannerVisible s' = false
    /\ scanned s' = false
    /\ dialogFlags s' = (false, showErrorModal s, showLogoutConfirm s)
    /\ posted s' = posted s ++ [mkScanRequest data currentUserId]
    /\ beeps s' = [] /\ inflight s' = [] /\ timers s' = []
    /\ now s' = now s + 2000
    /\ courses s' = courses s
    /\ errorMessage s' = errorMessage s.
Proof.
  intros V L B F T Ho.
  destruct s; simpl in *; subst.
  destruct created;
    unfold handleBarCodeScanned_settle, handleBarCodeScanned_post; simpl;
    rewrite Ho; simpl; unfold success_delay; rewrite !Z.leb_refl; simpl;
    eexists; repeat apply conj; reflexivity.
Qed.

(** X11. A failed scan leaves the scanner ready.  From an open and idle
    scanner, after the decode, its sound and a failed POST, the error
    dialog is open with the text of the failure, the scanner is still
    open and the latch is already clear: the decode callback is bound
    again even before the dialog is dismissed with 'Try Again'. *)
Theorem failed_scan_can_be_retried
        (data : string) (created : Settled nat) (o : Settled Response)
        (m : string) (s : State) :
  isScannerVisible s = true ->
  scanned s = false ->
  beeps s = [] ->
  inflight s = [] ->
  submission o = inl m ->
  exists s',
    run [Decode data; BeepSettled 0 created; FetchSettled 0 o] s = Some s'
    /\ showErrorModal s' = true
    /\ errorMessage s' = displayed_text m
    /\ isScannerVisible s' = true
    /\ scanned s' = false
    /\ (forall again, enabled (Decode again) s' = true)
    /\ enabled PressTryAgain s' = true
    /\ timers s' = timers s
    /\ posted s' = posted s ++ [mkScanRequest data currentUserId].
Proof.
  intros V L B F Ho.
  destruct s; simpl in *; subst.
  destruct created;
    unfold handleBarCodeScanned_settle, handleBarCodeScanned_post; simpl;
    rewrite Ho; simpl;
    eexists; repeat apply conj; reflexivity.
Qed.

(** *** Logout *)

Lemma route_step (e : Event) (s : State) (r : string) :
  enabled e s = true ->
  route (handle e s) = Some r ->
  route s = Some r
  \/ (r = "/" /\ e = PressConfirmLogout /\ showLogoutConfirm s = true).
Proof.
  intros En. revert En. by_cases e; intros En; auto.
  intros H. injection H as <-. auto.
Qed.

Lemma logout_dialog_step (e : Event) (s : State) :
  showLogoutConfirm (handle e s) = true ->
  showLogoutConfirm s = true \/ e = HardwareBack \/ e = PressLogout.
Proof.
  by_cases e; auto; discriminate.
Qed.

Lemma logout_run (events : list Event) (s s' : State) (r : string) :
  run events s = Some s' ->
  (showLogoutConfirm s' = true ->
   showLogoutConfirm s = true \/ In HardwareBack events \/ In PressLogout events)
  /\ (route s' = Some r ->
      route s = Some r
      \/ (r = "/" /\ In PressConfirmLogout events
          /\ (showLogoutConfirm s = true
              \/ In HardwareBack events \/ In PressLogout events))).
Proof.
  revert s. induction events as [|e events IH]; intros s; cbn [run].
  - intros E. injection E as <-. auto.
  - destruct (enabled e s) eqn:En; [|discriminate]. intros R.
    destruct (IH _ R) as [D G]. split.
    + intros H. destruct (D H) as [K|[K|K]]; simpl; auto.
      destruct (logout_dialog_step _ _ K) as [K'|[K'|K']]; auto.
    + intros H. destruct (G H) as [K|(K1 & K2 & K3)].
      * destruct (route_step _ _ _ En K) as [K'|(K1 & K2 & K3)]; auto.
        right. simpl. auto.
      * right. split; [exact K1|]. split; [simpl; auto|].
        destruct K3 as [K|[K|K]]; simpl; auto.
        destruct (logout_dialog_step _ _ K) as [K'|[K'|K']]; auto.
Qed.

(** X12. The screen is left only through the logout dialog: whenever the
    router has been told to replace the route, the target is the root
    route, 'Logout' was pressed in the confirmation dialog, and that dialog
    had been opened by the header button or by the hardware back button. *)
Theorem leaves_only_after_confirmation (events : list Event) (s : State) (r : string) :
  run events init = Some s ->
  route s = Some r ->
  r = "/"
  /\ In PressConfirmLogout events
  /\ (In HardwareBack events \/ In PressLogout events).
Proof.
  intros R H.
  destruct (logout_run _ _ _ r R) as [_ G].
  destruct (G H) as [K|(K1 & K2 & [K|K])]; try discriminate K; auto.
Qed.

(** *** Sound *)

(** X13. A sound that cannot be created changes nothing but the sound
    cell: the POST is issued all the same, and no alert, dialog or error
    text results from the failure. *)
Theorem sound_failure_is_silent (n : nat) (m : string) (h : nat) (s : State) :
  handleBarCodeScanned_post n (Rejected m) s
  = setSound (sound s) (handleBarCodeScanned_post n (Resolved h) s)
  /\ alerts (handleBarCodeScanned_post n (Rejected m) s) = alerts s
  /\ dialogFlags (handleBarCodeScanned_post n (Rejected m) s) = dialogFlags s
  /\ errorMessage (handleBarCodeScanned_post n (Rejected m) s) = errorMessage s
  /\ error (handleBarCodeScanned_post n (Rejected m) s) = error s.
Proof.
  unfold handleBarCodeScanned_post.
  destruct s; simpl. destruct (nth_error beeps0 n); repeat apply conj; reflexivity.
Qed.

(** *** Empty state and alerts *)

Lemma filter_nil_iff (C : list Course) :
  filter is_enrolled C = [] <-> forall c, In c C -> ~ has_member c.
Proof.
  induction C as [|c C IH]; simpl.
  - split; [intros _ c [] | reflexivity].
  - destruct (is_enrolled c) eqn:E.
    + split; [discriminate|]. intros H.
      exfalso. apply (H c); [left; reflexivity|].
      apply is_enrolled_has_member. exact E.
    + rewrite IH. split.
      * intros H x [<-|Hx]; [apply not_enrolled_no_member; exact E | apply H; exact Hx].
      * intros H x Hx. apply H. right. exact Hx.
Qed.

(** X14. After a course fetch on a screen without a fetch error, the
    empty-state view ('No enrolled courses found') is shown exactly when
    the font has settled and no fetched course lists the current user; in
    particular for an empty collection.  While the font is loading,
    nothing is shown. *)
Theorem empty_state_iff_not_enrolled (C : list Course) (s : State) :
  error s = None ->
  (screen (fetchEnrolledCourses (Resolved (CourseArray (map Some C))) s) = Some EmptyState
   <-> fontsReady s = true /\ forall c, In c C -> ~ has_member c).
Proof.
  intros He. rewrite <- filter_nil_iff.
  unfold screen, fontsReady, courseArea, fetchEnrolledCourses,
    fetchEnrolledCourses_resume, enrolledCourses.
  rewrite filter_enrolled_total. simpl. rewrite He.
  destruct (fontsLoaded s || fontError s);
    [|split; [discriminate | intros [H _]; discriminate]].
  destruct (filter is_enrolled C); split; intros H; auto; try discriminate.
  destruct H as [_ H]. discriminate.
Qed.

Lemma quiet_step (e : Event) (s : State) :
  enabled e s = true ->
  permissionPending s = false ->
  hasPermission s = Some true ->
  alerts (handle e s) = alerts s.
Proof.
  intros En Pn G. revert En.
  by_cases e; intros En; auto; congruence.
Qed.

(** X15. With the permission granted, the screen raises no alert any
    more: whatever the user scans, submits, closes or dismisses, the list
    of alerts stays as it is. *)
Theorem no_alert_once_granted (events : list Event) (s s' : State) :
  permissionPending s = false ->
  hasPermission s = Some true ->
  run events s = Some s' ->
  alerts s' = alerts s.
Proof.
  revert s. induction events as [|e events IH]; intros s Pn G; cbn [run].
  - intros E. injection E as <-. reflexivity.
  - destruct (enabled e s) eqn:En; [|discriminate]. intros R.
    destruct (settled_permission_step e s En Pn) as (H1 & H2 & _).
    rewrite (IH _ H2 (eq_trans H1 G) R).
    apply quiet_step; assumption.
Qed.

End Screen.

(** ** The properties at work

    The screen of user ["u1"], on the engine of [engine_text]. *)

Lemma absent_students_excluded_witness :
  In unlisted_course (fetched "u1")
  /\ students unlisted_course = None
  /\ ~ In unlisted_course
        (courses (fetchEnrolledCourses "u1"
                    (Resolved (CourseArray (map Some (fetched "u1")))) init)).
Proof.
  split; [|split].
  - right. right. left. reflexivity.
  - reflexivity.
  - apply (absent_students_excluded "u1" (fetched "u1") unlisted_course init).
    + right. right. left. reflexivity.
    + reflexivity.
Defined.

Lemma fetch_failure_surfaced_witness :
  FetchFails (Resolved (CourseArray [Some (enrolled_course "u1"); None]))
  /\ courseArea (fetchEnrolledCourses "u1"
                  (Resolved (CourseArray [Some (enrolled_course "u1"); None])) init)
     = ErrorBanner "Failed to fetch courses. Please try again.".
Proof.
  assert (H : FetchFails (Resolved (CourseArray [Some (enrolled_course "u1"); None]))).
  { apply ff_null_entry. right. left. reflexivity. }
  split; [exact H|].
  apply (fetch_failure_surfaced "u1" _ init H).
Defined.

Lemma submission_outcome_by_status_and_body_witness :
  nth_error (inflight (after "u1" engine_text (post_token "u1"))) 0
  = Some (mkScanRequest "TOKEN123" "u1")
  /\ showSuccessModal
       (handle "u1" engine_text (FetchSettled 0 (Resolved accepted))
               (after "u1" engine_text (post_token "u1"))) = true
  /\ showErrorModal
       (handle "u1" engine_text (FetchSettled 0 (Resolved session_expired))
               (after "u1" engine_text (post_token "u1"))) = true.
Proof.
  split; [reflexivity|]. split.
  - apply (submission_outcome_by_status_and_body "u1" engine_text accepted 0
             (mkScanRequest "TOKEN123" "u1")
             (after "u1" engine_text (post_token "u1")) eq_refl).
    + reflexivity.
    + eexists. reflexivity.
  - apply (submission_outcome_by_status_and_body "u1" engine_text session_expired 0
             (mkScanRequest "TOKEN123" "u1")
             (after "u1" engine_text (post_token "u1")) eq_refl).
    reflexivity.
Defined.

Lemma failure_message_by_error_text_witness :
  nth_error (inflight (after "u1" engine_text (post_token "u1"))) 0
  = Some (mkScanRequest "TOKEN123" "u1")
  /\ errorMessage
       (handle "u1" engine_text (FetchSettled 0 (Resolved session_expired))
               (after "u1" engine_text (post_token "u1"))) = "Session expired".
Proof.
  split; [reflexivity|].
  destruct (failure_message_by_error_text "u1" engine_text 0
              (mkScanRequest "TOKEN123" "u1")
              (after "u1" engine_text (post_token "u1")) eq_refl)
    as [_ [H _]].
  apply (H 400 [("message", JStr "Session expired")] "Session expired");
    reflexivity.
Defined.

Lemma success_dialog_closes_after_delay_witness :
  nth_error (inflight (after "u1" engine_text (post_token "u1"))) 0
  = Some (mkScanRequest "TOKEN123" "u1")
  /\ submission engine_text (Resolved accepted) = inr tt
  /\ timers (after "u1" engine_text (post_token "u1")) = []
  /\ activeDialogs
       (handle "u1" engine_text (FetchSettled 0 (Resolved accepted))
               (after "u1" engine_text (post_token "u1"))) = [SuccessDialog]
  /\ (forall s',
        run "u1" engine_text [Tick 500; Tick 1700; TimerFire 0]
            (handle "u1" engine_text (FetchSettled 0 (Resolved accepted))
                    (after "u1" engine_text (post_token "u1"))) = Some s' ->
        activeDialogs s' = [] /\ isScannerVisible s' = false /\ scanned s' = false).
Proof.
  assert (Hn : nth_error (inflight (after "u1" engine_text (post_token "u1"))) 0
               = Some (mkScanRequest "TOKEN123" "u1"))
    by (vm_compute; reflexivity).
  assert (Ho : submission engine_text (Resolved accepted) = inr tt)
    by (vm_compute; reflexivity).
  assert (Ht : timers (after "u1" engine_text (post_token "u1")) = [])
    by (vm_compute; reflexivity).
  split; [exact Hn|]. split; [exact Ho|]. split; [exact Ht|].
  destruct (success_dialog_closes_after_delay "u1" engine_text 0
              (mkScanRequest "TOKEN123" "u1") (Resolved accepted)
              (after "u1" engine_text (post_token "u1")) Hn Ho)
    as [[_ [_ H1]] [_ [H3 _]]].
  split.
  - apply H1; vm_compute; reflexivity.
  - intros s' R.
    destruct (H3 Ht [500; 1700] 0%nat s' R) as (_ & _ & _ & V & L & D).
    split; [apply D; vm_compute; reflexivity | split; assumption].
Defined.

Lemma latch_cleared_only_by_witness :
  scanned (after "u1" engine_text (decode_token "u1")) = true
  /\ scanned (handle "u1" engine_text PressCloseScanner
                     (after "u1" engine_text (decode_token "u1"))) = false
  /\ (PressCloseScanner = PressScanAgain
      \/ PressCloseScanner = PressCloseScanner
      \/ (exists n, PressCloseScanner = TimerFire n)
      \/ (exists n o m, PressCloseScanner = FetchSettled n o
                        /\ submission engine_text o = inl m)).
Proof.
  split; [reflexivity|]. split; [reflexivity|].
  apply (latch_cleared_only_by "u1" engine_text PressCloseScanner
           (after "u1" engine_text (decode_token "u1"))); reflexivity.
Defined.

Lemma latch_admits_one_submission_witness :
  run "u1" engine_text
      [Decode "TOKEN123"; Render; BeepSettled 0 (Resolved 1%nat); Tick 40;
       FetchSettled 0 (Resolved accepted)]
      (after "u1" engine_text (open_scanner "u1"))
  = Some (after "u1" engine_text
                (open_scanner "u1"
                 ++ [Decode "TOKEN123"; Render; BeepSettled 0 (Resolved 1%nat); Tick 40;
                     FetchSettled 0 (Resolved accepted)]))
  /\ decodes [BeepSettled 0 (Resolved 1%nat); Tick 40; FetchSettled 0 (Resolved accepted)]
     = 0%nat.
Proof.
  assert (R : run "u1" engine_text
                  ([Decode "TOKEN123"]
                   ++ Render
                      :: [BeepSettled 0 (Resolved 1%nat); Tick 40;
                          FetchSettled 0 (Resolved accepted)])
                  (after "u1" engine_text (open_scanner "u1"))
              = Some (after "u1" engine_text
                            (open_scanner "u1"
                             ++ [Decode "TOKEN123"; Render; BeepSettled 0 (Resolved 1%nat);
                                 Tick 40; FetchSettled 0 (Resolved accepted)])))
    by (vm_compute; reflexivity).
  assert (K : forallb (keeps_latch engine_text)
                      ([Decode "TOKEN123"]
                       ++ Render
                          :: [BeepSettled 0 (Resolved 1%nat); Tick 40;
                              FetchSettled 0 (Resolved accepted)]) = true)
    by (vm_compute; reflexivity).
  split; [exact R|].
  destruct (latch_admits_one_submission "u1" engine_text) as [_ [_ [_ H]]].
  apply (H _ _ _ _ R K). right. vm_compute. apply le_n.
Defined.

(** C3, as stated, fails: a 204 response without a body is a 2xx
    response, yet the success dialog stays hidden and the error dialog is
    shown with the parser's message. *)
Lemma success_needs_parsable_body_counterexample :
  run "u1" engine_text (post_token "u1") init
  = Some (after "u1" engine_text (post_token "u1"))
  /\ ok no_content = true
  /\ showSuccessModal
       (handle "u1" engine_text (FetchSettled 0 (Resolved no_content))
               (after "u1" engine_text (post_token "u1"))) = false
  /\ activeDialogs
       (handle "u1" engine_text (FetchSettled 0 (Resolved no_content))
               (after "u1" engine_text (post_token "u1"))) = [ErrorDialog]
  /\ errorMessage
       (handle "u1" engine_text (FetchSettled 0 (Resolved no_content))
               (after "u1" engine_text (post_token "u1")))
     = "JSON Parse error: Unexpected end of input".
Proof.
  repeat apply conj; vm_compute; reflexivity.
Qed.

(** C4, as stated, fails: a 503 response whose body carries the message
    'Network request failed' does not show that message but the fixed
    connection text; a rejection of [fetch] with another text shows that
    text, not the fixed one; and a body that does not parse shows the
    parser's message, not the fallback. *)
Lemma server_message_not_passed_through_counterexample :
  ok rejected_as_network = false
  /\ errorMessage
       (handle "u1" engine_text (FetchSettled 0 (Resolved rejected_as_network))
               (after "u1" engine_text (post_token "u1")))
     = "Unable to connect to the server. Please check your internet connection."
  /\ "Unable to connect to the server. Please check your internet connection."
     <> "Network request failed"
  /\ errorMessage
       (handle "u1" engine_text (FetchSettled 0 (Rejected "Network request timed out"))
               (after "u1" engine_text (post_token "u1")))
     = "Network request timed out"
  /\ errorMessage
       (handle "u1" engine_text (FetchSettled 0 (Resolved no_content))
               (after "u1" engine_text (post_token "u1")))
     = "JSON Parse error: Unexpected end of input"
  /\ "JSON Parse error: Unexpected end of input" <> "Failed to record attendance".
Proof.
  repeat apply conj; try (vm_compute; reflexivity); apply String.eqb_neq; reflexivity.
Qed.

(** C6, as stated, fails on the text: with the permission denied, the one
    alert raised reads 'No access to camera', without a full stop. *)
Lemma denied_alert_text_counterexample :
  run "u1" engine_text (refused_permission "u1" ++ [PressScan]) init
  = Some (after "u1" engine_text (refused_permission "u1" ++ [PressScan]))
  /\ hasPermission (after "u1" engine_text (refused_permission "u1")) = Some false
  /\ alerts (after "u1" engine_text (refused_permission "u1" ++ [PressScan]))
     = [("Error", "No access to camera")]
  /\ ~ In "No access to camera."
          (map snd (alerts (after "u1" engine_text (refused_permission "u1" ++ [PressScan])))).
Proof.
  repeat apply conj; try (vm_compute; reflexivity).
  vm_compute. intros [H|[]]. discriminate H.
Qed.

(** C7, as stated, fails: with the latch set and the POST on its way, a
    rejected submission clears the latch, and so does the back arrow of
    the scanner; neither is 'Scan Again' or the success timeout. *)
Lemma latch_cleared_by_failure_or_close_counterexample :
  run "u1" engine_text (post_token "u1") init
  = Some (after "u1" engine_text (post_token "u1"))
  /\ scanned (after "u1" engine_text (post_token "u1")) = true
  /\ enabled (FetchSettled 0 (Resolved session_expired))
             (after "u1" engine_text (post_token "u1")) = true
  /\ scanned (handle "u1" engine_text (FetchSettled 0 (Resolved session_expired))
                     (after "u1" engine_text (post_token "u1"))) = false
  /\ enabled PressCloseScanner (after "u1" engine_text (post_token "u1")) = true
  /\ scanned (handle "u1" engine_text PressCloseScanner
                     (after "u1" engine_text (post_token "u1"))) = false
  /\ timers (after "u1" engine_text (post_token "u1")) = [].
Proof.
  repeat apply conj; vm_compute; reflexivity.
Qed.

(** C8, as stated, fails: the hardware back button pressed while the POST
    is on its way opens the logout dialog, and the accepted scan then opens
    the success dialog over it. *)
Lemma two_dialogs_open_counterexample :
  run "u1" engine_text (back_while_posting "u1" accepted) init
  = Some (after "u1" engine_text (back_while_posting "u1" accepted))
  /\ activeDialogs (after "u1" engine_text (back_while_posting "u1" accepted))
     = [SuccessDialog; LogoutDialog]
  /\ activeDialogs (after "u1" engine_text (back_while_posting "u1" session_expired))
     = [ErrorDialog; LogoutDialog].
Proof.
  repeat apply conj; vm_compute; reflexivity.
Qed.

(** C2, as stated, fails on its last part: 'Scan Again' pressed while the
    first handler awaits the sound lets a second decode in; from then on
    the latch is set and nothing clears it, and both handlers issue their
    POST. *)
Lemma second_post_while_latched_counterexample :
  run "u1" engine_text (scan_again_early "u1") init
  = Some (after "u1" engine_text (scan_again_early "u1"))
  /\ scanned (after "u1" engine_text (scan_again_early "u1")) = true
  /\ posted (after "u1" engine_text (scan_again_early "u1")) = []
  /\ forallb (keeps_latch engine_text) both_sounds_settle = true
  /\ run "u1" engine_text both_sounds_settle
         (after "u1" engine_text (scan_again_early "u1"))
     = Some (after "u1" engine_text (scan_again_early "u1" ++ both_sounds_settle))
  /\ scanned (handle "u1" engine_text (BeepSettled 0 (Resolved 1%nat))
                     (after "u1" engine_text (scan_again_early "u1"))) = true
  /\ scanned (after "u1" engine_text (scan_again_early "u1" ++ both_sounds_settle)) = true
  /\ posted (after "u1" engine_text (scan_again_early "u1" ++ both_sounds_settle))
     = [mkScanRequest "TOKEN123" "u1"; mkScanRequest "TOKEN456" "u1"]
  /\ inflight (after "u1" engine_text (scan_again_early "u1" ++ both_sounds_settle))
     = [mkScanRequest "TOKEN123" "u1"; mkScanRequest "TOKEN456" "u1"].
Proof.
  repeat apply conj; vm_compute; reflexivity.
Qed.

(** C5, as stated, fails: the timeout of a first success is still pending
    when a second POST succeeds 1500 ms later, and it runs 500 ms after
    that: the success dialog is hidden, the scanner closed and the latch
    cleared 500 ms after the second success, while the timeout of the
    second success is still pending. *)
Lemma second_success_closed_early_counterexample :
  run "u1" engine_text (two_successes "u1") init
  = Some (after "u1" engine_text (two_successes "u1"))
  /\ now (after "u1" engine_text (two_successes "u1")) = 1500
  /\ showSuccessModal (after "u1" engine_text (two_successes "u1")) = true
  /\ timers (after "u1" engine_text (two_successes "u1")) = [2000; 3500]
  /\ run "u1" engine_text [Tick 500; TimerFire 0]
         (after "u1" engine_text (two_successes "u1"))
     = Some (after "u1" engine_text (two_successes "u1" ++ [Tick 500; TimerFire 0]))
  /\ now (after "u1" engine_text (two_successes "u1" ++ [Tick 500; TimerFire 0])) = 2000
  /\ showSuccessModal
       (after "u1" engine_text (two_successes "u1" ++ [Tick 500; TimerFire 0])) = false
  /\ isScannerVisible
       (after "u1" engine_text (two_successes "u1" ++ [Tick 500; TimerFire 0])) = false
  /\ scanned
       (after "u1" engine_text (two_successes "u1" ++ [Tick 500; TimerFire 0])) = false
  /\ timers
       (after "u1" engine_text (two_successes "u1" ++ [Tick 500; TimerFire 0])) = [3500].
Proof.
  repeat apply conj; vm_compute; reflexivity.
Qed.

(** ** End-to-end checks *)

(** Two decodes that arrive before the re-render both run the handler,
    and both POST, with no clearing event in between. *)
Example overlapping_decodes_both_post :
  run "u1" engine_text (overlapping_decodes "u1") init
  = Some (after "u1" engine_text (overlapping_decodes "u1"))
  /\ forallb (keeps_latch engine_text) (overlapping_decodes "u1") = true
  /\ posted (after "u1" engine_text (overlapping_decodes "u1"))
     = [mkScanRequest "TOKEN123" "u1"; mkScanRequest "TOKEN123" "u1"].
Proof.
  repeat apply conj; vm_compute; reflexivity.
Qed.

(** For user "u1" the one course that lists "u1" is shown; with no such
    course the empty-state view is shown. *)
Example enrolled_course_is_shown :
  courseArea (after "u1" engine_text
                    [CoursesSettled (Resolved (CourseArray (map Some (fetched "u1"))))])
  = Cards [enrolled_course "u1"]
  /\ courseArea (after "u2" engine_text
                       [CoursesSettled (Resolved (CourseArray [Some foreign_course]))])
     = EmptyState.
Proof.
  split; vm_compute; reflexivity.
Qed.

(** A decode of "TOKEN123" for student "u1" issues one POST with that
    payload; a 200 response shows the success dialog; a 400 response with
    the message 'Session expired' shows that text. *)
Example token_is_posted_once :
  posted (after "u1" engine_text (post_token "u1")) = [mkScanRequest "TOKEN123" "u1"]
  /\ activeDialogs (after "u1" engine_text
                          (post_token "u1" ++ [FetchSettled 0 (Resolved accepted)]))
     = [SuccessDialog]
  /\ errorMessage (after "u1" engine_text
                         (post_token "u1" ++ [FetchSettled 0 (Resolved session_expired)]))
     = "Session expired".
Proof.
  repeat apply conj; vm_compute; reflexivity.
Qed.

(** ** The invariants at work *)

Lemma scanner_requires_granted_permission_witness :
  run "u1" engine_text (decode_token "u1") init
  = Some (after "u1" engine_text (decode_token "u1"))
  /\ isScannerVisible (after "u1" engine_text (decode_token "u1")) = true
  /\ hasPermission (after "u1" engine_text (decode_token "u1")) = Some true
  /\ In (PermissionSettled (Resolved "granted")) (decode_token "u1").
Proof.
  assert (R : run "u1" engine_text (decode_token "u1") init
              = Some (after "u1" engine_text (decode_token "u1")))
    by (vm_compute; reflexivity).
  assert (V : isScannerVisible (after "u1" engine_text (decode_token "u1")) = true)
    by (vm_compute; reflexivity).
  split; [exact R|]. split; [exact V|].
  exact (scanner_requires_granted_permission "u1" engine_text _ _ R V).
Defined.

Lemma permission_answer_is_final_witness :
  permissionPending (after "u1" engine_text permission_request_fails) = false
  /\ run "u1" engine_text
         [CoursesSettled (Resolved (CourseArray (map Some (fetched "u1")))); PressScan;
          PressLogout; PressCancelLogout; PressScan]
         (after "u1" engine_text permission_request_fails)
     = Some (after "u1" engine_text
                   (permission_request_fails
                    ++ [CoursesSettled (Resolved (CourseArray (map Some (fetched "u1"))));
                        PressScan; PressLogout; PressCancelLogout; PressScan]))
  /\ isScannerVisible
       (after "u1" engine_text
              (permission_request_fails
               ++ [CoursesSettled (Resolved (CourseArray (map Some (fetched "u1"))));
                   PressScan; PressLogout; PressCancelLogout; PressScan])) = false.
Proof.
  assert (P : permissionPending (after "u1" engine_text permission_request_fails) = false)
    by (vm_compute; reflexivity).
  assert (R : run "u1" engine_text
                  [CoursesSettled (Resolved (CourseArray (map Some (fetched "u1")))); PressScan;
                   PressLogout; PressCancelLogout; PressScan]
                  (after "u1" engine_text permission_request_fails)
              = Some (after "u1" engine_text
                            (permission_request_fails
                             ++ [CoursesSettled (Resolved (CourseArray (map Some (fetched "u1"))));
                                 PressScan; PressLogout; PressCancelLogout; PressScan])))
    by (vm_compute; reflexivity).
  split; [exact P|]. split; [exact R|].
  apply (permission_answer_is_final "u1" engine_text _ _ _ P R).
  - vm_compute. discriminate.
  - vm_compute. reflexivity.
Defined.


Lemma spinner_while_courses_pending_witness :
  run "u1" engine_text [PermissionSettled (Resolved "granted"); FontsSettled false] init
  = Some (after "u1" engine_text [PermissionSettled (Resolved "granted"); FontsSettled false])
  /\ (screen (after "u1" engine_text
                    [PermissionSettled (Resolved "granted"); FontsSettled false])
      = Some Spinner
      <-> fontsReady (after "u1" engine_text
                            [PermissionSettled (Resolved "granted"); FontsSettled false])
          = true
          /\ coursesPending (after "u1" engine_text
                                   [PermissionSettled (Resolved "granted");
                                    FontsSettled false])
             = true).
Proof.
  assert (R : run "u1" engine_text
                  [PermissionSettled (Resolved "granted"); FontsSettled false] init
              = Some (after "u1" engine_text
                            [PermissionSettled (Resolved "granted"); FontsSettled false]))
    by (vm_compute; reflexivity).
  split; [exact R|].
  exact (proj1 (spinner_while_courses_pending "u1" engine_text _ _ R)).
Defined.

Lemma empty_state_iff_not_enrolled_witness :
  error (after "u2" engine_text [FontsSettled true]) = None
  /\ screen (fetchEnrolledCourses "u2" (Resolved (CourseArray (map Some (fetched "u1"))))
                                  (after "u2" engine_text [FontsSettled true]))
     = Some EmptyState.
Proof.
  assert (E : error (after "u2" engine_text [FontsSettled true]) = None)
    by (vm_compute; reflexivity).
  split; [exact E|].
  apply (empty_state_iff_not_enrolled "u2" (fetched "u1") _ E).
  split; [vm_compute; reflexivity|].
  intros c Hc. apply not_enrolled_no_member.
  destruct Hc as [<-|[<-|[<-|[]]]]; vm_compute; reflexivity.
Defined.

Lemma fetch_error_is_permanent_witness :
  error (after "u1" engine_text courses_unreachable)
  = Some "Failed to fetch courses. Please try again."
  /\ isLoading (after "u1" engine_text courses_unreachable) = false
  /\ run "u1" engine_text [PermissionSettled (Resolved "granted"); PressLogout; PressCancelLogout]
         (after "u1" engine_text courses_unreachable)
     = Some (after "u1" engine_text
                   (courses_unreachable
                    ++ [PermissionSettled (Resolved "granted"); PressLogout;
                        PressCancelLogout]))
  /\ courseArea (after "u1" engine_text
                       (courses_unreachable
                        ++ [PermissionSettled (Resolved "granted"); PressLogout;
                            PressCancelLogout]))
     = ErrorBanner "Failed to fetch courses. Please try again.".
Proof.
  assert (E : error (after "u1" engine_text courses_unreachable) = Some fetch_error_text)
    by (vm_compute; reflexivity).
  assert (L : isLoading (after "u1" engine_text courses_unreachable) = false)
    by (vm_compute; reflexivity).
  assert (R : run "u1" engine_text
                  [PermissionSettled (Resolved "granted"); PressLogout; PressCancelLogout]
                  (after "u1" engine_text courses_unreachable)
              = Some (after "u1" engine_text
                            (courses_unreachable
                             ++ [PermissionSettled (Resolved "granted"); PressLogout;
                                 PressCancelLogout])))
    by (vm_compute; reflexivity).
  split; [exact E|]. split; [exact L|]. split; [exact R|].
  exact (proj1 (fetch_error_is_permanent "u1" engine_text _ _ _ E L R)).
Defined.

Lemma every_decode_is_posted_once_witness :
  run "u1" engine_text (scan_again_early "u1" ++ [BeepSettled 1 (Rejected "no sound")]) init
  = Some (after "u1" engine_text
                (scan_again_early "u1" ++ [BeepSettled 1 (Rejected "no sound")]))
  /\ Permutation
       (map qrData
            (posted (after "u1" engine_text
                           (scan_again_early "u1" ++ [BeepSettled 1 (Rejected "no sound")])))
        ++ beeps (after "u1" engine_text
                        (scan_again_early "u1" ++ [BeepSettled 1 (Rejected "no sound")])))
       (payloads (scan_again_early "u1" ++ [BeepSettled 1 (Rejected "no sound")])).
Proof.
  assert (R : run "u1" engine_text
                  (scan_again_early "u1" ++ [BeepSettled 1 (Rejected "no sound")]) init
              = Some (after "u1" engine_text
                            (scan_again_early "u1" ++ [BeepSettled 1 (Rejected "no sound")])))
    by (vm_compute; reflexivity).
  split; [exact R|].
  exact (proj1 (every_decode_is_posted_once "u1" engine_text _ _ R)).
Defined.

Lemma response_after_close_still_opens_dialog_witness :
  nth_error (inflight (after "u1" engine_text (post_token "u1"))) 0
  = Some (mkScanRequest "TOKEN123" "u1")
  /\ isScannerVisible
       (handle "u1" engine_text (FetchSettled 0 (Resolved accepted))
               (handle "u1" engine_text PressCloseScanner
                       (after "u1" engine_text (post_token "u1")))) = false
  /\ showSuccessModal
       (handle "u1" engine_text (FetchSettled 0 (Resolved accepted))
               (handle "u1" engine_text PressCloseScanner
                       (after "u1" engine_text (post_token "u1")))) = true.
Proof.
  assert (H : nth_error (inflight (after "u1" engine_text (post_token "u1"))) 0
              = Some (mkScanRequest "TOKEN123" "u1"))
    by (vm_compute; reflexivity).
  split; [exact H|].
  destruct (response_after_close_still_opens_dialog "u1" engine_text 0 _
              (Resolved accepted) _ H) as (_ & _ & V & S & _).
  split; [exact V|].
  apply S. vm_compute. reflexivity.
Defined.

Lemma error_dialog_text_is_never_empty_witness :
  run "u1" engine_text (post_token "u1" ++ [FetchSettled 0 (Rejected "")]) init
  = Some (after "u1" engine_text (post_token "u1" ++ [FetchSettled 0 (Rejected "")]))
  /\ showErrorModal
       (after "u1" engine_text (post_token "u1" ++ [FetchSettled 0 (Rejected "")])) = true
  /\ errorMessage
       (after "u1" engine_text (post_token "u1" ++ [FetchSettled 0 (Rejected "")])) <> "".
Proof.
  assert (R : run "u1" engine_text (post_token "u1" ++ [FetchSettled 0 (Rejected "")]) init
              = Some (after "u1" engine_text
                            (post_token "u1" ++ [FetchSettled 0 (Rejected "")])))
    by (vm_compute; reflexivity).
  assert (E : showErrorModal
                (after "u1" engine_text (post_token "u1" ++ [FetchSettled 0 (Rejected "")]))
              = true)
    by (vm_compute; reflexivity).
  split; [exact R|]. split; [exact E|].
  exact (error_dialog_text_is_never_empty "u1" engine_text _ _ R E).
Defined.

Lemma rejection_without_usable_message_witness :
  ok (mkResponse 500 (Parsed (JObj [("message", JNum 0); ("code", JNum 17)]))) = false
  /\ submission engine_text
       (Resolved (mkResponse 500 (Parsed (JObj [("message", JNum 0); ("code", JNum 17)]))))
     = inl "Failed to record attendance".
Proof.
  split; [reflexivity|].
  destruct (rejection_without_usable_message engine_text 500
              (JObj [("message", JNum 0); ("code", JNum 17)]) eq_refl) as (_ & _ & H).
  apply (H [("message", JNum 0); ("code", JNum 17)] eq_refl).
  intros m E. vm_compute in E. injection E as <-. reflexivity.
Defined.

Lemma successful_scan_round_trip_witness :
  isScannerVisible (after "u1" engine_text (open_scanner "u1")) = true
  /\ scanned (after "u1" engine_text (open_scanner "u1")) = false
  /\ submission engine_text (Resolved accepted) = inr tt
  /\ exists s',
      run "u1" engine_text
          [Decode "TOKEN123"; BeepSettled 0 (Rejected "no sound");
           FetchSettled 0 (Resolved accepted); Tick 2000; TimerFire 0]
          (after "u1" engine_text (open_scanner "u1")) = Some s'
      /\ isScannerVisible s' = false
      /\ scanned s' = false.
Proof.
  assert (V : isScannerVisible (after "u1" engine_text (open_scanner "u1")) = true)
    by (vm_compute; reflexivity).
  assert (L : scanned (after "u1" engine_text (open_scanner "u1")) = false)
    by (vm_compute; reflexivity).
  assert (B : beeps (after "u1" engine_text (open_scanner "u1")) = [])
    by (vm_compute; reflexivity).
  assert (F : inflight (after "u1" engine_text (open_scanner "u1")) = [])
    by (vm_compute; reflexivity).
  assert (T : timers (after "u1" engine_text (open_scanner "u1")) = [])
    by (vm_compute; reflexivity).
  assert (S : submission engine_text (Resolved accepted) = inr tt)
    by (vm_compute; reflexivity).
  split; [exact V|]. split; [exact L|]. split; [exact S|].
  destruct (successful_scan_round_trip "u1" engine_text "TOKEN123" (Rejected "no sound")
              (Resolved accepted) _ V L B F T S) as (s' & R & V' & L' & _).
  exists s'. split; [exact R|]. split; [exact V' | exact L'].
Defined.

Lemma failed_scan_can_be_retried_witness :
  isScannerVisible (after "u1" engine_text (open_scanner "u1")) = true
  /\ scanned (after "u1" engine_text (open_scanner "u1")) = false
  /\ submission engine_text (Resolved session_expired) = inl "Session expired"
  /\ exists s',
      run "u1" engine_text
          [Decode "TOKEN123"; BeepSettled 0 (Resolved 1%nat);
           FetchSettled 0 (Resolved session_expired)]
          (after "u1" engine_text (open_scanner "u1")) = Some s'
      /\ showErrorModal s' = true
      /\ enabled (Decode "TOKEN456") s' = true.
Proof.
  assert (V : isScannerVisible (after "u1" engine_text (open_scanner "u1")) = true)
    by (vm_compute; reflexivity).
  assert (L : scanned (after "u1" engine_text (open_scanner "u1")) = false)
    by (vm_compute; reflexivity).
  assert (B : beeps (after "u1" engine_text (open_scanner "u1")) = [])
    by (vm_compute; reflexivity).
  assert (F : inflight (after "u1" engine_text (open_scanner "u1")) = [])
    by (vm_compute; reflexivity).
  assert (S : submission engine_text (Resolved session_expired) = inl "Session expired")
    by (vm_compute; reflexivity).
  split; [exact V|]. split; [exact L|]. split; [exact S|].
  destruct (failed_scan_can_be_retried "u1" engine_text "TOKEN123" (Resolved 1%nat)
              (Resolved session_expired) "Session expired" _ V L B F S)
    as (s' & R & E & _ & _ & _ & D & _).
  exists s'. split; [exact R|]. split; [exact E | apply D].
Defined.

Lemma leaves_only_after_confirmation_witness :
  run "u1" engine_text log_out init = Some (after "u1" engine_text log_out)
  /\ route (after "u1" engine_text log_out) = Some "/"
  /\ In PressConfirmLogout log_out
  /\ (In HardwareBack log_out \/ In PressLogout log_out).
Proof.
  assert (R : run "u1" engine_text log_out init = Some (after "u1" engine_text log_out))
    by (vm_compute; reflexivity).
  assert (H : route (after "u1" engine_text log_out) = Some "/")
    by (vm_compute; reflexivity).
  split; [exact R|]. split; [exact H|].
  exact (proj2 (leaves_only_after_confirmation "u1" engine_text _ _ _ R H)).
Defined.

Lemma no_alert_once_granted_witness :
  permissionPending (after "u1" engine_text (open_scanner "u1")) = false
  /\ hasPermission (after "u1" engine_text (open_scanner "u1")) = Some true
  /\ run "u1" engine_text
         [Decode "TOKEN123"; BeepSettled 0 (Resolved 1%nat);
          FetchSettled 0 (Resolved session_expired); PressTryAgain; PressCloseScanner;
          PressScan]
         (after "u1" engine_text (open_scanner "u1"))
     = Some (after "u1" engine_text
                   (post_token "u1"
                    ++ [FetchSettled 0 (Resolved session_expired); PressTryAgain;
                        PressCloseScanner; PressScan]))
  /\ alerts (after "u1" engine_text
                   (post_token "u1"
                    ++ [FetchSettled 0 (Resolved session_expired); PressTryAgain;
                        PressCloseScanner; PressScan]))
     = alerts (after "u1" engine_text (open_scanner "u1")).
Proof.
  assert (P : permissionPending (after "u1" engine_text (open_scanner "u1")) = false)
    by (vm_compute; reflexivity).
  assert (G : hasPermission (after "u1" engine_text (open_scanner "u1")) = Some true)
    by (vm_compute; reflexivity).
  assert (R : run "u1" engine_text
                  [Decode "TOKEN123"; BeepSettled 0 (Resolved 1%nat);
                   FetchSettled 0 (Resolved session_expired); PressTryAgain;
                   PressCloseScanner; PressScan]
                  (after "u1" engine_text (open_scanner "u1"))
              = Some (after "u1" engine_text
                            (post_token "u1"
                             ++ [FetchSettled 0 (Resolved session_expired); PressTryAgain;
                                 PressCloseScanner; PressScan])))
    by (vm_compute; reflexivity).
  split; [exact P|]. split; [exact G|]. split; [exact R|].
  exact (no_alert_once_granted "u1" engine_text _ _ _ P G R).
Defined.
